(** * DOCConvert: format dispatch, text extraction and the conversion endpoint

    A shallow embedding of [src/app/convert/page.tsx] (the client page:
    [extractText], [convertDocument], the format selectors) and of
    [src/app/api/convert/route.ts] (the [POST] handler), followed by the
    properties of the dispatch and fallback logic.

    JavaScript strings are sequences of UTF-16 code units; they are modelled
    as lists of [N].  Third-party libraries (pdfjs, tesseract, jszip, docx,
    pdf-lib, libreoffice-convert) and the browser (fetch, canvas, clock) are
    not re-implemented: what they return is read from a record of oracles,
    and every call that leaves the program is written to a log. *)

From Stdlib Require Import NArith ZArith QArith Qround List Ascii String Lia Bool.
From Stdlib Require Import PrimFloat Lqa.
From stdpp Require Import gmap strings list.
Import ListNotations.

Set Default Proof Using "Type".

(** ** JavaScript strings *)

Module JS.

Local Open Scope N_scope.

(** A UTF-16 code unit, and a string. *)
Abbreviation char16 := N (only parsing).
Abbreviation jsstring := (list N) (only parsing).

(** A source literal that only holds ASCII characters. *)
Definition lit (s : string) : jsstring :=
  map N_of_ascii (list_ascii_of_string s).

Definition ch (a : ascii) : char16 := N_of_ascii a.

Definition in_range (lo hi c : char16) : bool := ((lo <=? c) && (c <=? hi))%N.

(** [\s] of a regular expression and the characters [String.prototype.trim]
    removes: WhiteSpace and LineTerminator of ECMA-262. *)
Definition is_space (c : char16) : bool :=
  in_range 9 13 c || (c =? 32) || (c =? 160) || (c =? 5760)
  || in_range 8192 8202 c || (c =? 8232)%N || (c =? 8233)%N
  || (c =? 8239)%N || (c =? 8287)%N || (c =? 12288)%N || (c =? 65279)%N.

(** LineTerminator: what [.] does not match. *)
Definition is_line_terminator (c : char16) : bool :=
  (c =? 10)%N || (c =? 13)%N || (c =? 8232)%N || (c =? 8233)%N.

Definition is_digit (c : char16) : bool := in_range 48 57 c.
Definition is_upper (c : char16) : bool := in_range 65 90 c.
Definition is_lower (c : char16) : bool := in_range 97 122 c.
Definition is_alpha (c : char16) : bool := is_upper c || is_lower c.
(** [[A-Za-z0-9]] *)
Definition is_alnum (c : char16) : bool := is_alpha c || is_digit c.
(** [[0-9a-fA-F]] *)
Definition is_hex (c : char16) : bool :=
  is_digit c || in_range 97 102 c || in_range 65 70 c.

Fixpoint drop_space (s : jsstring) : jsstring :=
  match s with
  | c :: s' => if is_space c then drop_space s' else s
  | [] => []
  end.

(** [s.trim()] *)
Definition trim (s : jsstring) : jsstring :=
  rev (drop_space (rev (drop_space s))).

(** The line feed, and the double quote. *)
Definition nl : jsstring := [10].
Definition dq : jsstring := [34].

(** A string is truthy when it is not empty. *)
Definition truthy (s : jsstring) : bool :=
  match s with [] => false | _ => true end.

Definition eqb (s t : jsstring) : bool := bool_decide (s = t).

(** [parts.join(sep)] *)
Fixpoint join (sep : jsstring) (parts : list jsstring) : jsstring :=
  match parts with
  | [] => []
  | [p] => p
  | p :: rest => p ++ sep ++ join sep rest
  end.

(** [s.split(c)] for a one-character separator: never returns the empty
    list, an empty [s] gives one empty piece. *)
Fixpoint split_char (c : char16) (s : jsstring) : list jsstring :=
  match s with
  | [] => [[]]
  | x :: s' =>
      if (x =? c)%N then [] :: split_char c s'
      else match split_char c s' with
           | p :: ps => (x :: p) :: ps
           | [] => [[x]]
           end
  end.

(** ** Global regular expressions

    A pattern is given by its matcher at the head of a string: the length
    of the match there, when there is one.  Every pattern of the program
    matches at least one character, so the scan below is the scan of
    [replace], [matchAll] and [split] with the [g] flag: on a match jump
    behind it, otherwise move one character on. *)

Definition matcher : Type := jsstring -> option nat.

(** [s.replace(/re/g, rep)] *)
Fixpoint replace_from (m : matcher) (rep : jsstring) (skip : nat) (s : jsstring)
  : jsstring :=
  match s with
  | [] => []
  | c :: s' =>
      match skip with
      | S k => replace_from m rep k s'
      | O =>
          match m s with
          | Some (S n) => rep ++ replace_from m rep n s'
          | _ => c :: replace_from m rep 0%nat s'
          end
      end
  end.

Definition replace_all (m : matcher) (rep : jsstring) (s : jsstring) : jsstring :=
  replace_from m rep 0%nat s.

(** The matches of [/re/g] in [s], each with its first capture group. *)
Definition cmatcher : Type := jsstring -> option (nat * jsstring).

Fixpoint matches_from (m : cmatcher) (skip : nat) (s : jsstring) : list jsstring :=
  match s with
  | [] => []
  | c :: s' =>
      match skip with
      | S k => matches_from m k s'
      | O =>
          match m s with
          | Some (S n, g) => g :: matches_from m n s'
          | _ => matches_from m 0%nat s'
          end
      end
  end.

Definition match_all (m : cmatcher) (s : jsstring) : list jsstring :=
  matches_from m 0%nat s.

(** [s.split(/re/)]: the pieces between the matches. *)
Fixpoint split_from (m : matcher) (skip : nat) (cur : jsstring) (s : jsstring)
  : list jsstring :=
  match s with
  | [] => [rev cur]
  | c :: s' =>
      match skip with
      | S k => split_from m k cur s'
      | O =>
          match m s with
          | Some (S n) => rev cur :: split_from m n [] s'
          | _ => split_from m 0%nat (c :: cur) s'
          end
      end
  end.

Definition split_re (m : matcher) (s : jsstring) : list jsstring :=
  split_from m 0%nat [] s.

(** *** Pieces of matchers *)

(** Is [p] a prefix of [s]?  Then the rest of [s]. *)
Fixpoint strip_prefix (p s : jsstring) : option jsstring :=
  match p, s with
  | [], _ => Some s
  | a :: p', b :: s' => if (a =? b)%N then strip_prefix p' s' else None
  | _ :: _, [] => None
  end.

(** The longest run of characters satisfying [f] at the head of [s]. *)
Fixpoint span_len (f : char16 -> bool) (s : jsstring) : nat :=
  match s with
  | c :: s' => if f c then S (span_len f s') else 0%nat
  | [] => 0%nat
  end.

(** The position of the first occurrence of [p] in [s], reading only
    characters that satisfy [allowed] before it. *)
Fixpoint find_sub (allowed : char16 -> bool) (p s : jsstring) : option nat :=
  match strip_prefix p s with
  | Some _ => Some 0%nat
  | None =>
      match s with
      | c :: s' => if allowed c then S <$> find_sub allowed p s' else None
      | [] => None
      end
  end.

Definition any_char (_ : char16) : bool := true.
Definition not_gt (c : char16) : bool := negb (c =? 62)%N.

(** Decimal digits of a number, for template literals. *)
Fixpoint digits_fuel (fuel : nat) (n : N) (acc : jsstring) : jsstring :=
  match fuel with
  | O => acc
  | S fuel' =>
      let acc' := (48 + n mod 10)%N :: acc in
      if (n <? 10)%N then acc' else digits_fuel fuel' (n / 10)%N acc'
  end.

Definition of_N (n : N) : jsstring := digits_fuel (S (N.to_nat (N.log2 n))) n [].

End JS.

Import JS.

(** ** The patterns of [extractText] and [convertDocument] *)

Module Re.

Local Open Scope nat_scope.

Definition one_of (f : char16 -> bool) : matcher :=
  fun s => match s with c :: _ => if f c then Some 1 else None | [] => None end.

(** An optional character: how many characters [c?] takes at the head. *)
Definition opt_char (c : char16) (s : jsstring) : nat :=
  match s with x :: _ => if (x =? c)%N then 1 else 0 | [] => 0 end.

(** [/\u0000/g] *)
Definition nul : matcher := one_of (fun c => (c =? 0)%N).

(** [/[{}]/g] *)
Definition braces : matcher := one_of (fun c => (c =? 123)%N || (c =? 125)%N).

(** [/\\par[d]?/g] *)
Definition par : matcher := fun s =>
  rest ← strip_prefix (lit "\par") s;
  Some (4 + opt_char (ch "d") rest).

(** [/\\'[0-9a-fA-F]{2}/g] *)
Definition hex_escape : matcher := fun s =>
  rest ← strip_prefix (lit "\'") s;
  match rest with
  | a :: b :: _ => if is_hex a && is_hex b then Some 4 else None
  | _ => None
  end.

(** [/\\u-?\d+\??/g].  When the digits are missing after a [-] that was
    taken, the retry without the [-] fails on the [-] itself. *)
Definition unicode_escape : matcher := fun s =>
  rest ← strip_prefix (lit "\u") s;
  let k := opt_char (ch "-") rest in
  let d := span_len is_digit (drop k rest) in
  if d =? 0 then None
  else Some (2 + k + d + opt_char (ch "?") (drop (k + d) rest)).

(** [/\\[a-zA-Z]+-?\d* ?/g] *)
Definition control_word : matcher := fun s =>
  rest ← strip_prefix (lit "\") s;
  let a := span_len is_alpha rest in
  if a =? 0 then None
  else
    let k := opt_char (ch "-") (drop a rest) in
    let d := span_len is_digit (drop (a + k) rest) in
    Some (1 + a + k + d + opt_char (ch " ") (drop (a + k + d) rest)).

(** The head of an element pattern [<name[^>]*>]: [name], then everything
    up to the next [>], which has to be there. *)
Definition open_tag (name : jsstring) (s : jsstring) : option (nat * jsstring) :=
  rest ← strip_prefix name s;
  let g := span_len not_gt rest in
  match drop g rest with
  | _ :: body => Some (length name + g + 1, body)
  | [] => None
  end.

(** [<name[^>]*>(BODY*?)close], where [allowed] says what one character
    of BODY is. *)
Definition element (name close : jsstring) (allowed : char16 -> bool) : cmatcher :=
  fun s =>
    '(n, body) ← open_tag name s;
    k ← find_sub allowed close body;
    Some (n + k + length close, take k body).

(** [/<w:t[^>]*>(.*?)<\/w:t>/g] *)
Definition w_t : cmatcher :=
  element (lit "<w:t") (lit "</w:t>") (fun c => negb (is_line_terminator c)).

(** [/<text:p[^>]*>([\s\S]*?)<\/text:p>/g] *)
Definition text_p : cmatcher :=
  element (lit "<text:p") (lit "</text:p>") any_char.

(** [/<w:p[\s\S]*?>/] *)
Definition w_p : matcher := fun s =>
  rest ← strip_prefix (lit "<w:p") s;
  k ← find_sub any_char (lit ">") rest;
  Some (4 + k + 1).

(** [/<[^>]+>/g] *)
Definition any_tag : matcher := fun s =>
  match s with
  | c :: rest =>
      if (c =? 60)%N then
        let g := span_len not_gt rest in
        match g, drop g rest with
        | S _, _ :: _ => Some (1 + g + 1)
        | _, _ => None
        end
      else None
  | [] => None
  end.

(** [/\s{2,}/g] *)
Definition spaces2 : matcher := fun s =>
  let n := span_len is_space s in if 2 <=? n then Some n else None.

(** [/\s+/] *)
Definition spaces1 : matcher := fun s =>
  let n := span_len is_space s in if 1 <=? n then Some n else None.

(** Replacing single characters: [/\\/g], [/{/g], [/}/g], [/\n/g], [/&/g], [/</g]. *)
Definition char (c : char16) : matcher := one_of (fun x => (x =? c)%N).

End Re.

(** ** Data model of the page *)

(** [ConversionFormat]: the five string literals of the union type. *)
Inductive ConversionFormat : Type := PDF | DOCX | TXT | RTF | ODT.

Global Instance ConversionFormat_eq_dec : EqDecision ConversionFormat.
Proof. solve_decision. Defined.

(** The string each member stands for in the source. *)
Definition label (f : ConversionFormat) : jsstring :=
  match f with
  | PDF => lit "PDF"
  | DOCX => lit "Word Document (DOCX)"
  | TXT => lit "Text File (TXT)"
  | RTF => lit "Rich Text (RTF)"
  | ODT => lit "OpenDocument Text (ODT)"
  end.

(** [formatOptions] *)
Definition formatOptions : list ConversionFormat := [PDF; DOCX; TXT; RTF; ODT].

Definition getExtension (format : ConversionFormat) : jsstring :=
  match format with
  | DOCX => lit "docx"
  | PDF => lit "pdf"
  | TXT => lit "txt"
  | RTF => lit "rtf"
  | ODT => lit "odt"
  end.

Definition getMimeType (format : ConversionFormat) : jsstring :=
  match format with
  | DOCX => lit "application/vnd.openxmlformats-officedocument.wordprocessingml.document"
  | PDF => lit "application/pdf"
  | TXT => lit "text/plain"
  | RTF => lit "application/rtf"
  | ODT => lit "application/vnd.oasis.opendocument.text"
  end.

(** [extMap] of [convertDocument] *)
Definition extMap (format : ConversionFormat) : jsstring :=
  match format with
  | PDF => lit ".pdf"
  | DOCX => lit ".docx"
  | TXT => lit ".txt"
  | RTF => lit ".rtf"
  | ODT => lit ".odt"
  end.

Definition bytes : Type := list Byte.byte.

Record File : Type := { file_name : jsstring; file_bytes : bytes }.

Inductive BlobData : Type :=
  | BText (text : jsstring)
  | BBytes (data : bytes).

Record Blob : Type := { blob_data : BlobData; blob_type : jsstring }.

(** [Health]: the body of the health endpoint as the page keeps it. *)
Record ServerHealth : Type := { available : bool; message : option jsstring }.
Record Health : Type :=
  { ok : bool; server : ServerHealth; error : option jsstring }.

(** The body the health route answers with ([api/convert/health/route.ts]):
    [ok] and [server.available] are one and the same flag. *)
Definition health_report (flag : bool) (msg : jsstring) : Health :=
  {| ok := flag; server := {| available := flag; message := Some msg |}; error := None |}.

(** A page of a loaded PDF: the [str] fields of its text items; an item
    without a string [str] is [None]. *)
Record PdfPage : Type := { items : list (option jsstring) }.
Definition PdfDocument : Type := list PdfPage.

(** The body of the request [convertDocument] posts. *)
Record FormData : Type :=
  { fd_file : File; fd_targetExt : jsstring; fd_sourceExt : jsstring }.

(** The JSON body of a failed response, as far as the page reads it:
    [error] when it is a string, [hints] when it is an array. *)
Record ErrorBody : Type :=
  { body_error : option jsstring; body_hints : option (list jsstring) }.

Record Response : Type :=
  { resp_ok : bool;
    resp_status : N;
    resp_json : option ErrorBody;   (* [None]: [resp.json()] rejects *)
    resp_arrayBuffer : bytes }.

(** What the docx library is given. *)
Inductive Paragraph : Type :=
  | TextParagraph (line : jsstring)   (* [new Paragraph({children: [new TextRun(line)]})] *)
  | EmptyParagraph                    (* [new Paragraph('')] *)
  | ImageParagraph (data : bytes) (width height : Z).

(** ** Effects: a log of the calls that leave the page, and exceptions *)

Inductive Event : Type :=
  | EvFetch (url : jsstring) (form : FormData)   (* [fetch(url, {method: 'POST', body})] *)
  | EvOcrPath (page : nat)                       (* the OCR fallback is entered *)
  | EvRecognize (page : nat).                    (* tesseract is loaded and asked to recognize *)

Inductive result (A : Type) : Type :=
  | Ok (a : A)
  | Throw (msg : jsstring).
Arguments Ok {A} a.
Arguments Throw {A} msg.

(** An asynchronous computation: how it settles, and what it did before. *)
Definition M (A : Type) : Type := result A * list Event.

Definition ret {A} (a : A) : M A := (Ok a, []).
Definition throw {A} (msg : jsstring) : M A := (Throw msg, []).
Definition emit (e : Event) : M unit := (Ok tt, [e]).
Definition lift {A} (r : result A) : M A := (r, []).

Definition bind {A B} (m : M A) (k : A -> M B) : M B :=
  match m with
  | (Ok a, log) => let '(r, log') := k a in (r, log ++ log')
  | (Throw msg, log) => (Throw msg, log)
  end.

Declare Scope js_scope.
Delimit Scope js_scope with js.
Notation "x <~ m ;; k" := (bind m (fun x => k))
  (at level 100, m at next level, right associativity) : js_scope.
Notation "m ;;; k" := (bind m (fun _ => k))
  (at level 100, right associativity) : js_scope.

Definition outcome {A} (m : M A) : result A := fst m.
Definition trace {A} (m : M A) : list Event := snd m.

Definition is_fetch (e : Event) : bool :=
  match e with EvFetch _ _ => true | _ => false end.

(** No network request was issued. *)
Definition no_network {A} (m : M A) : Prop :=
  Forall (fun e => is_fetch e = false) (trace m).

Definition fails {A} (m : M A) : Prop := exists msg, outcome m = Throw msg.

(** ** Collaborators *)

(** The libraries, as functions of their arguments. *)
Record Libs : Type :=
  { (* [file.text()]: the bytes decoded as UTF-8 *)
    utf8_decode : bytes -> jsstring;
    (* [JSZip.loadAsync(ab)], each entry read with [async('string')] *)
    jszip_loadAsync : bytes -> result (gmap string jsstring);
    (* [String.prototype.toLowerCase] *)
    toLowerCase : jsstring -> jsstring;
    (* [Packer.toBlob(new Document({sections: [{children}]}))] *)
    packer_toBlob : list Paragraph -> Blob;
    (* [font.widthOfTextAtSize(text, 12)] for Helvetica *)
    widthOfTextAtSize : jsstring -> Q;
    (* the saved PDF: per page, the lines drawn and their [y] *)
    pdf_save : list (list (jsstring * Q)) -> bytes }.

(** What rendering a page to a canvas gives. *)
Inductive Canvas : Type :=
  | NoContext                                  (* [getContext('2d')] is null *)
  | RenderThrows (msg : jsstring)
  | Rendered (width height : Z) (png : bytes). (* size, and [toDataURL] decoded *)

(** The surroundings of one run: the browser, the network, the user. *)
Record World : Type :=
  { (* [new Date().toLocaleString()] *)
    now_toLocaleString : jsstring;
    (* [typeof document !== 'undefined'] *)
    has_document : bool;
    (* [pdfjs.getDocument(...).promise]; the flag says whether [onPassword]
       is passed, the prompts and their answers being part of the call *)
    pdf_getDocument : bool -> File -> result PdfDocument;
    (* the page rendered at scale 2 *)
    render : nat -> Canvas;
    (* [Tesseract.recognize(canvas, 'eng')]: [data.text], or a rejection *)
    recognize : nat -> result jsstring;
    (* the answer of [POST /api/convert], or a network failure *)
    fetch_convert : FormData -> result Response }.

(** The state the component's closures read. *)
Record State : Type :=
  { sourceFormat : ConversionFormat;
    targetFormat : ConversionFormat;
    preserveLayout : bool;
    useServer : bool;
    health : option Health }.

(** ** [extractText] *)

Section Page.

Variable L : Libs.
Variable W : World.
Variable st : State.

Local Open Scope nat_scope.
Local Open Scope js_scope.

(** [toPlain] *)
Definition toPlain (s : jsstring) : jsstring := replace_all Re.nul [] s.

(** The "very naive RTF -> text stripper". *)
Definition rtf_strip (raw : jsstring) : jsstring :=
  replace_all Re.control_word []
    (replace_all Re.unicode_escape []
       (replace_all Re.hex_escape []
          (replace_all Re.par (nl)
             (replace_all Re.braces [] raw)))).

(** The text of [word/document.xml]. *)
Definition docx_text (docXml : jsstring) : jsstring :=
  let texts := match_all Re.w_t docXml in
  let paraBreaks := length (split_re Re.w_p docXml) - 1 in
  let content := join [] texts in
  let content :=
    if 0 <? paraBreaks
    then replace_all Re.spaces2 (nl) content
    else content in
  toPlain content.

(** The text of [content.xml]. *)
Definition odt_text (contentXml : jsstring) : jsstring :=
  let paras :=
    map (fun m => trim (replace_all Re.any_tag [] m))
        (match_all Re.text_p contentXml) in
  toPlain (join (nl) paras).

(** [items.map(it => typeof it.str === 'string' ? it.str : '').join(' ')] *)
Definition page_text (page : PdfPage) : jsstring :=
  join (lit " ") (map (fun it => default [] it) (items page)).

(** [alnumCount] *)
Definition alnumCount (pageText : jsstring) : nat :=
  length (filter (fun c => is_alnum c = true) pageText).

(** [needsOCR].  The source compares [alnumCount < pageText.length * 0.2]
    in double precision.  The double next to 0.2 is 0.2 * (1 + 2^-54): for
    a length 5k the product rounds to k, and for any other length it stays
    strictly between the two integers around a fifth of the length.  The
    comparison is therefore that of [5 * alnumCount] with the length;
    [density_low_double] below is the comparison as the source computes it,
    and the two are checked against each other further down. *)
Definition needsOCR (pageText : jsstring) : bool :=
  (length (trim pageText) <? 20) || (5 * alnumCount pageText <? length pageText).

(** A count as a double (exact: counts are far below 2^53). *)
Fixpoint to_double (n : nat) : float :=
  match n with
  | O => 0%float
  | S k => (to_double k + 1)%float
  end.

(** [alnumCount < length * 0.2] on binary64 numbers. *)
Definition density_low_double (count len : nat) : bool :=
  PrimFloat.ltb (to_double count) (to_double len * 0x1.999999999999ap-3)%float.

(** The body of the loop over the pages, up to the text of page [i]. *)
Definition extract_page (i : nat) (page : PdfPage) : M jsstring :=
  let pageText := page_text page in
  if needsOCR pageText && has_document W then
    emit (EvOcrPath i);;;
    match render W i with
    | Rendered _ _ _ =>
        emit (EvRecognize i);;;
        match recognize W i with
        | Ok text => if truthy (trim text) then ret (trim text) else ret pageText
        | Throw _ => ret pageText     (* caught: "keep whatever text we had" *)
        end
    | NoContext => ret pageText
    | RenderThrows _ => ret pageText  (* caught *)
    end
  else ret pageText.

(** [for (let i = 1; i <= pdf.numPages; i++)]: the pages from [i] on, with
    [out] as it stands. *)
Fixpoint extract_pages (numPages i : nat) (pages : list PdfPage) (out : jsstring)
  : M jsstring :=
  match pages with
  | [] => ret out
  | page :: rest =>
      pageText <~ extract_page i page;;
      extract_pages numPages (S i) rest
        (out ++ pageText ++
           (if i <? numPages then (nl ++ nl) else []))
  end.

Definition extractText (file : File) (fmt : ConversionFormat) : M jsstring :=
  match fmt with
  | TXT => ret (utf8_decode L (file_bytes file))
  | RTF => ret (toPlain (rtf_strip (utf8_decode L (file_bytes file))))
  | DOCX =>
      zip <~ lift (jszip_loadAsync L (file_bytes file));;
      match zip !! "word/document.xml"%string with
      | Some docXml => if truthy docXml then ret (docx_text docXml) else ret []
      | None => ret []
      end
  | ODT =>
      zip <~ lift (jszip_loadAsync L (file_bytes file));;
      match zip !! "content.xml"%string with
      | Some contentXml => if truthy contentXml then ret (odt_text contentXml) else ret []
      | None => ret []
      end
  | PDF =>
      pdf <~ lift (pdf_getDocument W true file);;
      out <~ extract_pages (length pdf) 1 pdf [];;
      ret (toPlain out)
  end.

(** ** [convertDocument] *)

Definition unavailable_msg : jsstring :=
  lit "Server conversion unavailable. See health check details.".

Definition blocked_pair_msg : jsstring :=
  lit "PDF " ++ [8594%N] ++ lit " DOCX/ODT is not supported in server mode. Disable "
  ++ dq ++ lit "Use server conversion" ++ dq ++ lit " or enable "
  ++ dq ++ lit "Preserve layout" ++ dq ++ lit " for image-based DOCX.".

(** The server path, from [extMap] to the returned blob. *)
Definition server_convert (file : File) (sourceFormat targetFormat : ConversionFormat)
  : M Blob :=
  let targetExt := extMap targetFormat in
  let sourceExt := extMap sourceFormat in
  let form := {| fd_file := file; fd_targetExt := targetExt; fd_sourceExt := sourceExt |} in
  emit (EvFetch (lit "/api/convert") form);;;
  resp <~ lift (fetch_convert W form);;
  if negb (resp_ok resp) then
    let base :=
      match resp_json resp ≫= body_error with
      | Some e => e
      | None => lit "Server conversion failed (" ++ of_N (resp_status resp) ++ lit ")"
      end in
    let hints :=
      match resp_json resp ≫= body_hints with
      | Some (h :: hs) => nl ++ join nl (h :: hs)
      | _ => []
      end in
    throw (base ++ hints)
  else
    ret {| blob_data := BBytes (resp_arrayBuffer resp); blob_type := getMimeType targetFormat |}.

(** [Math.round] on an exact rational. *)
Definition round (x : Q) : Z := Qfloor (x + (1 # 2))%Q.

(** The loop of the layout-preserving path.  Sizes are computed on exact
    rationals where the source uses doubles. *)
Fixpoint layout_pages (numPages i : nat) (pages : list PdfPage)
  (children : list Paragraph) : M (list Paragraph) :=
  match pages with
  | [] => ret children
  | _ :: rest =>
      if negb (has_document W) then throw (lit "document is not defined")
      else
        match render W i with
        | NoContext => layout_pages numPages (S i) rest children
        | RenderThrows msg => throw msg
        | Rendered cw chh png =>
            let ratio := (700 / inject_Z cw)%Q in
            let width := round (inject_Z cw * ratio)%Q in
            let height := round (inject_Z chh * ratio)%Q in
            layout_pages numPages (S i) rest
              (children ++ [ImageParagraph png width height]
                 ++ (if i <? numPages then [EmptyParagraph] else []))
        end
  end.

(** The provenance header. *)
Definition header (file : File) (sourceFormat targetFormat : ConversionFormat)
  : jsstring :=
  lit "Converted from: " ++ file_name file ++ nl
  ++ lit "Original format: " ++ label sourceFormat ++ nl
  ++ lit "Target format: " ++ label targetFormat ++ nl
  ++ lit "Conversion date: " ++ now_toLocaleString W ++ nl ++ nl.

Definition placeholder : jsstring := lit "(No extractable text found)".

(** [full] *)
Definition full (hdr text : jsstring) : jsstring :=
  hdr ++ (if truthy (trim text) then text else placeholder).

(** [esc] of the RTF target *)
Definition esc (s : jsstring) : jsstring :=
  replace_all (Re.char 125%N) (lit "\}")
    (replace_all (Re.char 123%N) (lit "\{")
       (replace_all (Re.char 92%N) (lit "\\") s)).

Definition rtf_of (body : jsstring) : jsstring :=
  lit "{\rtf1\ansi" ++ nl
  ++ replace_all (Re.char 10%N) (lit "\par" ++ nl) (esc body) ++ nl ++ lit "}".

Definition odt_of (body : jsstring) : jsstring :=
  lit "<?xml version=" ++ dq ++ lit "1.0" ++ dq ++ lit " encoding=" ++ dq
  ++ lit "UTF-8" ++ dq ++ lit "?>" ++ nl
  ++ lit "<office:document xmlns:office=" ++ dq
  ++ lit "urn:oasis:names:tc:opendocument:xmlns:office:1.0" ++ dq
  ++ lit " xmlns:text=" ++ dq
  ++ lit "urn:oasis:names:tc:opendocument:xmlns:text:1.0" ++ dq
  ++ lit "><office:body><office:text>"
  ++ join []
       (map (fun p =>
               lit "<text:p>"
               ++ replace_all (Re.char 60%N) (lit "&lt;")
                    (replace_all (Re.char 38%N) (lit "&amp;") p)
               ++ lit "</text:p>")
            (split_char 10%N body))
  ++ lit "</office:text></office:body></office:document>".

(** Word wrap of the PDF target: [lines] and [current] after one word. *)
Definition wrap_word (acc : list jsstring * jsstring) (w : jsstring)
  : list jsstring * jsstring :=
  let '(lines, current) := acc in
  let test := if truthy current then current ++ lit " " ++ w else w in
  if negb (Qle_bool (widthOfTextAtSize L test) 512) then
    ((if truthy current then lines ++ [current] else lines), w)
  else (lines, test).

Definition wrap (body : jsstring) : list jsstring :=
  let '(lines, current) := fold_left wrap_word (split_re Re.spaces1 body) ([], []) in
  if truthy current then lines ++ [current] else lines.

(** Drawing the lines: [y] starts at 742, a page is added when
    [y < margin + fontSize], each line moves [y] down by [fontSize * 1.4]. *)
Fixpoint draw_lines (lines : list jsstring) (y : Q) (page : list (jsstring * Q))
  (pages : list (list (jsstring * Q))) : list (list (jsstring * Q)) :=
  match lines with
  | [] => pages ++ [page]
  | ln :: rest =>
      if negb (Qle_bool 62 y)
      then draw_lines rest (742 - (84 # 5))%Q [(ln, 742%Q)] (pages ++ [page])
      else draw_lines rest (y - (84 # 5))%Q (page ++ [(ln, y)]) pages
  end.

Definition pdf_of (body : jsstring) : bytes :=
  pdf_save L (draw_lines (wrap body) 742%Q [] []).

(** From [full] to the blob, by target format. *)
Definition build (targetFormat : ConversionFormat) (body : jsstring) : Blob :=
  match targetFormat with
  | TXT => {| blob_data := BText body; blob_type := getMimeType targetFormat |}
  | RTF => {| blob_data := BText (rtf_of body); blob_type := getMimeType targetFormat |}
  | DOCX => packer_toBlob L (map TextParagraph (split_char 10%N body))
  | ODT => {| blob_data := BText (odt_of body); blob_type := getMimeType targetFormat |}
  | PDF => {| blob_data := BBytes (pdf_of body); blob_type := getMimeType PDF |}
  end.

Definition health_not_ok : bool :=
  match health st with
  | Some h => negb (ok h)
  | None => false
  end.

Definition convertDocument (file : File) (sourceFormat targetFormat : ConversionFormat)
  : M Blob :=
  if useServer st && health_not_ok then throw unavailable_msg
  else if useServer st
          && bool_decide (sourceFormat = PDF)
          && (bool_decide (targetFormat = DOCX) || bool_decide (targetFormat = ODT))
  then throw blocked_pair_msg
  else if useServer st then server_convert file sourceFormat targetFormat
  else if bool_decide (sourceFormat = PDF) && bool_decide (targetFormat = DOCX)
          && preserveLayout st
  then
    pdf <~ lift (pdf_getDocument W false file);;
    children <~ layout_pages (length pdf) 1 pdf [];;
    ret (packer_toBlob L children)
  else
    text <~ extractText file sourceFormat;;
    ret (build targetFormat (full (header file sourceFormat targetFormat) text)).

End Page.



(** ** The format selectors of [ConvertPage] *)

Module UI.

(** What the component keeps besides [State]: whether a health check is
    running. *)
Record Page : Type := { st : State; healthLoading : bool }.

Definition initial : Page :=
  {| st := {| sourceFormat := DOCX; targetFormat := PDF; preserveLayout := false;
              useServer := false; health := None |};
     healthLoading := false |}.

Inductive Msg : Type :=
  | SelectSource (f : ConversionFormat)       (* the source [select] changes *)
  | SelectTarget (f : ConversionFormat)       (* the target [select] changes *)
  | FilesSelected (names : list jsstring)     (* file input or drop: the files' names *)
  | SetPreserveLayout (b : bool)
  | SetUseServer (b : bool)
  | HealthStart                               (* [checkServerHealth] is called *)
  | HealthDone (data : option Health).        (* its [fetch] settles; [None]: it threw *)

(** The target [select] lists [formatOptions.filter(option => option !== sourceFormat)]. *)
Definition targetOptions (p : Page) : list ConversionFormat :=
  filter (fun option => option ≠ sourceFormat (st p)) formatOptions.

Definition with_formats (s : State) (src tgt : ConversionFormat) : State :=
  {| sourceFormat := src; targetFormat := tgt; preserveLayout := preserveLayout s;
     useServer := useServer s; health := health s |}.

Section Handlers.

Variable L : Libs.

(** The extension of [handleFilesSelected]: [name.split('.').pop()?.toLowerCase()]. *)
Definition extension (name : jsstring) : jsstring :=
  toLowerCase L (List.last (split_char 46%N name) []).

Definition detect (name : jsstring) : option ConversionFormat :=
  let ext := extension name in
  if eqb ext (lit "pdf") then Some PDF
  else if eqb ext (lit "docx") || eqb ext (lit "doc") then Some DOCX
  else if eqb ext (lit "txt") then Some TXT
  else if eqb ext (lit "rtf") then Some RTF
  else if eqb ext (lit "odt") then Some ODT
  else None.

(** The state the handlers leave behind, before the effects run. *)
Definition handle (m : Msg) (p : Page) : Page :=
  let s := st p in
  match m with
  | SelectSource f =>
      {| st := with_formats s f (targetFormat s); healthLoading := healthLoading p |}
  | SelectTarget f =>
      {| st := with_formats s (sourceFormat s) f; healthLoading := healthLoading p |}
  | FilesSelected names =>
      match names with
      | name :: _ =>
          match detect name with
          | Some detected =>
              let prev := targetFormat s in
              let tgt :=
                if bool_decide (prev = detected)
                then (if bool_decide (detected = PDF) then DOCX else PDF)
                else prev in
              {| st := with_formats s detected tgt; healthLoading := healthLoading p |}
          | None => p
          end
      | [] => p
      end
  | SetPreserveLayout b =>
      {| st := {| sourceFormat := sourceFormat s; targetFormat := targetFormat s;
                  preserveLayout := b; useServer := useServer s; health := health s |};
         healthLoading := healthLoading p |}
  | SetUseServer b =>
      (* the checkbox is disabled when [health?.ok === false || healthLoading] *)
      if bool_decide (ok <$> health s = Some false) || healthLoading p then p
      else
        {| st := {| sourceFormat := sourceFormat s; targetFormat := targetFormat s;
                    preserveLayout := preserveLayout s; useServer := b;
                    health := health s |};
           healthLoading := healthLoading p |}
  | HealthStart => {| st := s; healthLoading := true |}
  | HealthDone (Some data) =>
      {| st := {| sourceFormat := sourceFormat s; targetFormat := targetFormat s;
                  preserveLayout := preserveLayout s;
                  useServer := if negb (ok data) && useServer s then false else useServer s;
                  health := Some data |};
         healthLoading := false |}
  | HealthDone None =>
      {| st := {| sourceFormat := sourceFormat s; targetFormat := targetFormat s;
                  preserveLayout := preserveLayout s;
                  useServer := false;
                  health :=
                    Some {| ok := false;
                            server := {| available := false;
                                         message := Some (lit "Health check failed") |};
                            error := Some (lit "Health check failed") |} |};
         healthLoading := false |}
  end.

(** The effect "Ensure target format is never equal to source". *)
Definition effect (p : Page) : Page :=
  let s := st p in
  if bool_decide (targetFormat s = sourceFormat s) then
    let firstAlt :=
      default PDF (List.find (fun f => bool_decide (f ≠ sourceFormat s)) formatOptions) in
    {| st := with_formats s (sourceFormat s) firstAlt; healthLoading := healthLoading p |}
  else p.

(** One user or network event: its handler, then the effect. *)
Definition step (m : Msg) (p : Page) : Page := effect (handle m p).

(** The pages the user can see once the effects have run. *)
Inductive reachable : Page -> Prop :=
  | reach_initial : reachable (effect initial)
  | reach_step m p : reachable p -> reachable (step m p).

End Handlers.

End UI.

(** ** The conversion endpoint: [POST] of [api/convert/route.ts] *)

Module Route.

(** A value of the posted form: a string, or a file with its name. *)
Inductive FormValue : Type :=
  | FString (s : jsstring)
  | FFile (f : File).

(** The fields the handler reads.  [targetExt] and [sourceExt] are read
    through the cast [as string | null] and are strings here. *)
Record Form : Type :=
  { form_file : option FormValue;
    form_targetExt : option jsstring;
    form_sourceExt : option jsstring }.

Inductive Request : Type :=
  | NoForm (msg : jsstring)     (* [req.formData()] rejects *)
  | WithForm (form : Form).

Inductive Body : Type :=
  | JsonError (error : jsstring) (hints : option (list jsstring))
  | Binary (data : bytes) (contentType contentDisposition : jsstring).

Record HttpResponse : Type := { status : N; body : Body }.

(** The options object given to [convertWithOptions]. *)
Record Options : Type :=
  { fileName : jsstring; sofficeBinaryPaths : list jsstring;
    times : N; interval : N }.

(** The calls into the office-suite integration. *)
Inductive Call : Type :=
  | Import                                                   (* [import('libreoffice-convert')] *)
  | Convert (input : bytes) (target : jsstring)
  | ConvertWithOptions (input : bytes) (target : jsstring) (options : Options).

(** What [import('libreoffice-convert')] gives, as [getLibreOfficeFns] looks at it. *)
Inductive LcModule : Type :=
  | ModFunction
  | ModObject (default_fn convert_fn convertWithOptions_fn : bool)
  | ModOther.

Record Host : Type :=
  { toLowerCase : jsstring -> jsstring;
    (* [path.extname], [path.basename(p, ext)] *)
    path_extname : jsstring -> jsstring;
    path_basename : jsstring -> option jsstring -> jsstring;
    (* [process.env.LIBREOFFICE_BIN], [LIBRE_OFFICE_EXE], [LIBRE_OFFICE_BIN] *)
    env_LIBREOFFICE_BIN : option jsstring;
    env_LIBRE_OFFICE_EXE : option jsstring;
    env_LIBRE_OFFICE_BIN : option jsstring;
    (* [os.platform()] *)
    platform : jsstring;
    lc_import : result LcModule;
    (* how a conversion call settles *)
    lc_run : Call -> result bytes }.

(** [getLibreOfficeFns]: is there a [convert], is there a [convertWithOptions]. *)
Definition getLibreOfficeFns (lc : LcModule) : bool * bool :=
  match lc with
  | ModFunction => (true, false)
  | ModObject true _ _ => (true, false)
  | ModObject false c cwo => (c, cwo)
  | ModOther => (false, false)
  end.

(** [Array.from(new Set(xs))]: the first occurrence of each element. *)
Fixpoint dedup (seen xs : list jsstring) : list jsstring :=
  match xs with
  | [] => []
  | x :: rest =>
      if bool_decide (x ∈ seen) then dedup seen rest else x :: dedup (x :: seen) rest
  end.

(** [a || b] on optional strings: the first that is set and not empty. *)
Definition or_else (a b : option jsstring) : option jsstring :=
  match a with
  | Some (c :: s) => Some (c :: s)
  | _ => b
  end.

(** [/ENOENT/i.test(msg)] *)
Definition upper (c : char16) : char16 := if is_lower c then (c - 32)%N else c.

Fixpoint contains_ci (p s : jsstring) : bool :=
  match strip_prefix p (take (length p) (map upper s)) with
  | Some _ => true
  | None => match s with _ :: s' => contains_ci p s' | [] => false end
  end.

(** [/\.pdf$/i.test(name)] *)
Definition ends_with_pdf (name : jsstring) : bool :=
  eqb (map upper (drop (length name - 4) name)) (lit ".PDF").

(** [/[^A-Za-z0-9_.-]+/g] *)
Definition unsafe_run : matcher := fun s =>
  let n :=
    span_len
      (fun c => negb (is_alnum c || (c =? 95)%N || (c =? 46)%N || (c =? 45)%N)) s in
  if (1 <=? n)%nat then Some n else None.

Section Handler.

Variable H : Host.

Definition resolveSofficeBinaryPaths : list jsstring :=
  let envBin :=
    or_else (env_LIBREOFFICE_BIN H)
      (or_else (env_LIBRE_OFFICE_EXE H) (env_LIBRE_OFFICE_BIN H)) in
  let envPaths :=
    match envBin with Some (c :: s) => [c :: s] | _ => [] end in
  let envPaths :=
    if eqb (platform H) (lit "win32") then
      envPaths ++ [lit "C\Program Files\LibreOffice\program\soffice.exe";
                   lit "C\Program Files (x86)\LibreOffice\program\soffice.exe"]
    else if eqb (platform H) (lit "darwin") then
      envPaths ++ [lit "/Applications/LibreOffice.app/Contents/MacOS/soffice"]
    else envPaths ++ [lit "/usr/bin/soffice"; lit "/usr/local/bin/soffice"] in
  dedup [] (filter (fun p => truthy p = true) envPaths).

Definition json (code : N) (error : jsstring) (hints : option (list jsstring))
  : HttpResponse :=
  {| status := code; body := JsonError error hints |}.

Definition mime (targetExt : jsstring) : jsstring :=
  if eqb targetExt (lit ".pdf") then lit "application/pdf"
  else if eqb targetExt (lit ".docx")
  then lit "application/vnd.openxmlformats-officedocument.wordprocessingml.document"
  else if eqb targetExt (lit ".doc") then lit "application/msword"
  else if eqb targetExt (lit ".rtf") then lit "application/rtf"
  else if eqb targetExt (lit ".odt") then lit "application/vnd.oasis.opendocument.text"
  else lit "application/octet-stream".

Definition rejected_msg : jsstring :=
  lit "PDF to DOCX/ODT is not reliably supported by LibreOffice on the server. Use client conversion with Preserve layout or convert to TXT/RTF instead.".

(** The inner [catch]: a 502 with hints. *)
Definition conversion_failed (msg : jsstring) : HttpResponse :=
  let paths := resolveSofficeBinaryPaths in
  let hints :=
    if contains_ci (lit "ENOENT") msg then
      [lit "Output file not found. This often means soffice did not run or failed.";
       lit "Ensure LibreOffice is installed and soffice is on PATH, or set LIBREOFFICE_BIN to the full path to soffice.exe."]
    else [] in
  let hints := hints ++ [lit "Paths tried: " ++ join (lit ", ") paths] in
  json 502 (lit "LibreOffice conversion failed: " ++ msg) (Some hints).

(** The inner [try]: the conversion itself. *)
Definition run_conversion (inputBuf : bytes) (targetExt inferredName : jsstring)
  : HttpResponse * list Call :=
  match lc_import H with
  | Throw msg => (conversion_failed msg, [Import])
  | Ok lcModule =>
      let '(convert, convertWithOptions) := getLibreOfficeFns lcModule in
      if negb convert && negb convertWithOptions then
        (json 500 (lit "libreoffice-convert module load failed") None, [Import])
      else
        let target :=
          match targetExt with
          | c :: rest => if (c =? 46)%N then rest else targetExt
          | [] => []
          end in
        let call :=
          if convertWithOptions then
            ConvertWithOptions inputBuf target
              {| fileName := inferredName;
                 sofficeBinaryPaths := resolveSofficeBinaryPaths;
                 times := 30; interval := 500 |}
          else Convert inputBuf target in
        match lc_run H call with
        | Throw msg => (conversion_failed msg, [Import; call])
        | Ok res =>
            ({| status := 200;
                body := Binary res (mime targetExt)
                          (lit "attachment; filename=" ++ dq ++ lit "converted"
                           ++ targetExt ++ dq) |},
             [Import; call])
        end
  end.

(** [POST]: the response, and the calls made into the office suite. *)
Definition POST (req : Request) : HttpResponse * list Call :=
  match req with
  | NoForm msg => (json 500 msg None, [])
  | WithForm form =>
      let targetExt := toLowerCase H <$> form_targetExt form in
      let sourceExt := toLowerCase H <$> form_sourceExt form in
      match form_file form, targetExt with
      | Some (FFile file), Some (c :: t) =>
          let targetExt := c :: t in
          let inputBuf := file_bytes file in
          let uploadedName := file_name file in
          let safeUploaded := replace_all unsafe_run (lit "_") uploadedName in
          let uploadedExt := path_extname H safeUploaded in
          let baseName :=
            match
              path_basename H (if truthy safeUploaded then safeUploaded else lit "source")
                (if truthy uploadedExt then Some uploadedExt else None)
            with
            | [] => lit "source"
            | b => b
            end in
          let inferredName := baseName in
          if (bool_decide (sourceExt = Some (lit ".pdf")) || ends_with_pdf (file_name file))
             && (eqb targetExt (lit ".docx") || eqb targetExt (lit ".odt"))
          then (json 400 rejected_msg None, [])
          else run_conversion inputBuf targetExt inferredName
      | _, _ => (json 400 (lit "Invalid request") None, [])
      end
  end.

End Handler.

End Route.

(** ** Sample collaborators and inputs *)

Module Sample.

Definition ascii_lower (c : char16) : char16 :=
  if is_upper c then (c + 32)%N else c.

Definition bytes_of (s : string) : bytes := String.list_byte_of_string s.

(** A ZIP container with both markup parts; the DOCX part is cut off in
    the middle of a tag. *)
Definition archive : gmap string jsstring :=
  {[ "word/document.xml"%string := lit "<w:body><w:t>Hello</w:t><w:p";
     "content.xml"%string := lit "<text:p>Hi <text:span>there</text:span></text:p>" ]}.

Definition libs : Libs :=
  {| utf8_decode := map (fun b => N_of_ascii (ascii_of_byte b));
     jszip_loadAsync := fun _ => Ok archive;
     toLowerCase := map ascii_lower;
     packer_toBlob := fun _ => {| blob_data := BBytes []; blob_type := getMimeType DOCX |};
     widthOfTextAtSize := fun s => inject_Z (6 * Z.of_nat (length s));
     pdf_save := fun _ => [] |}.

(** A page whose text layer is twelve letters followed by twelve spaces. *)
Definition padded_page : PdfPage :=
  {| items := [Some (lit "abcdefghijkl            ")] |}.

(** A page with a full text layer that carries a NUL character. *)
Definition nul_page : PdfPage :=
  {| items := [Some (lit "Quarterly report" ++ [0%N] ++ lit "for the board of directors")] |}.

Definition dense_page (n : nat) : PdfPage :=
  {| items := [Some (lit "Page text with plenty of letters"); Some (of_N (N.of_nat n))] |}.

Definition response_ok : Response :=
  {| resp_ok := true; resp_status := 200; resp_json := None; resp_arrayBuffer := [] |}.

Definition world (now : string) (pdf : PdfDocument) : World :=
  {| now_toLocaleString := lit now;
     has_document := true;
     pdf_getDocument := fun _ _ => Ok pdf;
     render := fun _ => NoContext;
     recognize := fun _ => Throw (lit "no worker");
     fetch_convert := fun _ => Ok response_ok |}.

Definition morning : World := world "1/2/2026, 10:00:00 AM" [].

Definition state (server : bool) (h : option Health) : State :=
  {| sourceFormat := PDF; targetFormat := DOCX; preserveLayout := false;
     useServer := server; health := h |}.

Definition down : Health :=
  {| ok := false;
     server := {| available := false; message := Some (lit "LibreOffice not detected.") |};
     error := None |}.

Definition notes : File :=
  {| file_name := lit "notes.txt"; file_bytes := bytes_of "buy milk" |}.


Definition three_pages : PdfDocument := [dense_page 1; dense_page 2; dense_page 3].

Definition report : File :=
  {| file_name := lit "report.pdf"; file_bytes := bytes_of "%PDF-1.7" |}.

Definition letter : File :=
  {| file_name := lit "letter.docx"; file_bytes := bytes_of "PK" |}.

Definition host : Route.Host :=
  {| Route.toLowerCase := map ascii_lower;
     Route.path_extname := fun _ => lit ".pdf";
     Route.path_basename := fun _ _ => lit "report";
     Route.env_LIBREOFFICE_BIN := None;
     Route.env_LIBRE_OFFICE_EXE := None;
     Route.env_LIBRE_OFFICE_BIN := None;
     Route.platform := lit "linux";
     Route.lc_import := Ok (Route.ModObject false true true);
     Route.lc_run := fun _ => Ok [] |}.


End Sample.

(** ** The health probe: [GET] of [api/convert/health/route.ts]

    The file repeats [getLibreOfficeFns] and [resolveSofficeBinaryPaths]
    of the conversion route word for word; they are shared here.  The
    probe passes no [execOptions]; the conversion route always passes the
    same one ([windowsHide]), which is why [Route.Options] has no field
    for it. *)

Module Probe.

Record Answer : Type :=
  { probe_status : N;               (* 200 or 503 *)
    probe_body : Health;            (* [ok] and [server] of the JSON body *)
    probe_bin : option jsstring }.  (* [details.bin] *)

Definition not_detected_msg : jsstring :=
  lit "LibreOffice not detected. Install LibreOffice and ensure soffice is on PATH or set LIBREOFFICE_BIN.".

Definition available_msg : jsstring :=
  lit "LibreOffice is available for server conversion.".

Definition not_loaded_msg : jsstring :=
  lit "libreoffice-convert module could not be loaded.".

(** [Buffer.from('health-check')] *)
Definition sample : bytes := String.list_byte_of_string "health-check".

Section Handler.

Variable H : Route.Host.

(** The trial conversion, by the calling convention that is there. *)
Definition probe_call (convertWithOptions : bool) : Route.Call :=
  if convertWithOptions then
    Route.ConvertWithOptions sample (lit "pdf")
      {| Route.fileName := lit "health";
         Route.sofficeBinaryPaths := Route.resolveSofficeBinaryPaths H;
         Route.times := 20; Route.interval := 500 |}
  else Route.Convert sample (lit "pdf").

(** [result] and the status it is sent with. *)
Definition answer (flag : bool) (msg : jsstring) : Answer :=
  {| probe_status := if flag then 200%N else 503%N;
     probe_body := health_report flag msg;
     probe_bin := Route.env_LIBREOFFICE_BIN H |}.

Definition GET : Answer * list Route.Call :=
  match Route.lc_import H with
  | Throw msg => (answer false (lit "Health check error: " ++ msg), [Route.Import])
  | Ok lcModule =>
      let '(convert, convertWithOptions) := Route.getLibreOfficeFns lcModule in
      if convert || convertWithOptions then
        let call := probe_call convertWithOptions in
        match Route.lc_run H call with
        | Ok _ => (answer true available_msg, [Route.Import; call])
        | Throw msg =>
            (answer false (lit "LibreOffice convert failed: " ++ msg),
             [Route.Import; call])
        end
      else (answer false not_loaded_msg, [Route.Import])
  end.

End Handler.

End Probe.

(** ** [handleConvert]

    The progress bar and its timers are left out: they only count up to
    30 and to 100 while the conversion runs. *)

Module Run.

Inductive ConversionStatus : Type := idle | uploading | converting | success | error.

(** What the conversion form shows: [status], [errorMsg], the object the
    download link points to, and [fileName]. *)
Record View : Type :=
  { status : ConversionStatus;
    errorMsg : option jsstring;
    downloadUrl : option Blob;
    fileName : jsstring }.

(** [`converted-${file.name.split('.')[0]}.${getExtension(targetFormat)}`] *)
Definition downloadName (file : File) (targetFormat : ConversionFormat) : jsstring :=
  lit "converted-" ++ hd [] (split_char 46%N (file_name file))
  ++ lit "." ++ getExtension targetFormat.

Definition handleConvert (L : Libs) (W : World) (s : State) (file : option File)
  (v : View) : View * list Event :=
  match file with
  | None => (v, [])     (* [alert('Please select a file first')] *)
  | Some f =>
      match convertDocument L W s f (sourceFormat s) (targetFormat s) with
      | (Ok convertedBlob, log) =>
          ({| status := success; errorMsg := None;
              downloadUrl := Some convertedBlob;
              fileName := downloadName f (targetFormat s) |}, log)
      | (Throw msg, log) =>
          ({| status := error; errorMsg := Some msg;
              downloadUrl := downloadUrl v; fileName := fileName v |}, log)
      end
  end.

End Run.

(** ** The page and the endpoint, wired together

    What the browser and the framework do between [fetch] in the page and
    [POST] in the route: the multipart form arrives field by field, a
    response is [ok] when its status is in 200..299, [resp.json()] reads a
    JSON body and rejects on a binary one. *)

Module Wire.

Definition request_of (form : FormData) : Route.Request :=
  Route.WithForm
    {| Route.form_file := Some (Route.FFile (fd_file form));
       Route.form_targetExt := Some (fd_targetExt form);
       Route.form_sourceExt := Some (fd_sourceExt form) |}.

Section Http.

(** The bytes of a serialized JSON error body. *)
Variable json_bytes : jsstring -> option (list jsstring) -> bytes.

Definition response_of (r : Route.HttpResponse) : Response :=
  {| resp_ok := (200 <=? Route.status r)%N && (Route.status r <=? 299)%N;
     resp_status := Route.status r;
     resp_json :=
       match Route.body r with
       | Route.JsonError e hints => Some {| body_error := Some e; body_hints := hints |}
       | Route.Binary _ _ _ => None
       end;
     resp_arrayBuffer :=
       match Route.body r with
       | Route.JsonError e hints => json_bytes e hints
       | Route.Binary data _ _ => data
       end |}.

(** The surroundings [W] with the network answered by the route on [H]. *)
Definition served_by (H : Route.Host) (W : World) : World :=
  {| now_toLocaleString := now_toLocaleString W;
     has_document := has_document W;
     pdf_getDocument := pdf_getDocument W;
     render := render W;
     recognize := recognize W;
     fetch_convert := fun form => Ok (response_of (fst (Route.POST H (request_of form)))) |}.

End Http.

End Wire.

(** ** Vocabulary of the statements *)

(** The characters of a string that are not whitespace. *)
Definition visible (s : jsstring) : jsstring :=
  filter (fun c => is_space c = false) s.

(** One character as [esc] leaves it. *)
Definition rtf_escape (c : N) : jsstring :=
  if (c =? 92)%N || (c =? 123)%N || (c =? 125)%N then [92%N; c] else [c].

(** One character as the ODT target leaves it. *)
Definition xml_escape (c : N) : jsstring :=
  if (c =? 38)%N then lit "&amp;" else if (c =? 60)%N then lit "&lt;" else [c].

(** What the ODT target writes before and after the paragraphs. *)
Definition odt_prologue : jsstring :=
  lit "<?xml version=" ++ dq ++ lit "1.0" ++ dq ++ lit " encoding=" ++ dq
  ++ lit "UTF-8" ++ dq ++ lit "?>" ++ nl
  ++ lit "<office:document xmlns:office=" ++ dq
  ++ lit "urn:oasis:names:tc:opendocument:xmlns:office:1.0" ++ dq
  ++ lit " xmlns:text=" ++ dq
  ++ lit "urn:oasis:names:tc:opendocument:xmlns:text:1.0" ++ dq
  ++ lit "><office:body><office:text>".

Definition odt_epilogue : jsstring :=
  lit "</office:text></office:body></office:document>".

(** [[A-Za-z0-9_.-]] *)
Definition safe_char (c : N) : bool :=
  is_alnum c || (c =? 95)%N || (c =? 46)%N || (c =? 45)%N.

(** What the wrap loop holds after some words: the finished lines and
    the line in progress. *)
Definition wrapped (acc : list jsstring * jsstring) : jsstring :=
  visible (concat (fst acc) ++ snd acc).

(** A line is in order when it fits the text width or is one single word. *)
Definition line_ok (L : Libs) (words : list jsstring) (line : jsstring) : Prop :=
  Qle_bool (widthOfTextAtSize L line) 512 = true \/ In line words.

Definition wrap_inv (L : Libs) (words : list jsstring) (acc : list jsstring * jsstring)
  : Prop :=
  Forall (fun line => line ≠ [] /\ line_ok L words line) (fst acc)
  /\ (snd acc = [] \/ line_ok L words (snd acc)).

(** Where a line was drawn: at or above [margin + fontSize], at or below
    the top margin. *)
Definition drawn_ok (d : jsstring * Q) : Prop := (62 <= snd d /\ snd d <= 742)%Q.

(** The target that goes with a newly chosen source [src] when the target
    was [prev]: kept, unless the two collide. *)
Definition fallback (prev src : ConversionFormat) : ConversionFormat :=
  if bool_decide (prev = src) then (if bool_decide (src = PDF) then DOCX else PDF)
  else prev.

(** What the page shows for a JSON error: the error, then the hints, one
    per line. *)
Definition shown (e : jsstring) (hints : option (list jsstring)) : jsstring :=
  e ++ match hints with
       | Some (h :: hs) => nl ++ join nl (h :: hs)
       | _ => []
       end.





(** ** More sample collaborators and inputs *)

Module MoreSample.

(** A host on which the office suite cannot be started. *)
Definition broken_host : Route.Host :=
  {| Route.toLowerCase := map Sample.ascii_lower;
     Route.path_extname := fun _ => lit ".docx";
     Route.path_basename := fun _ _ => lit "letter";
     Route.env_LIBREOFFICE_BIN := Some (lit "/opt/libreoffice/soffice");
     Route.env_LIBRE_OFFICE_EXE := None;
     Route.env_LIBRE_OFFICE_BIN := None;
     Route.platform := lit "linux";
     Route.lc_import := Ok Route.ModFunction;
     Route.lc_run := fun _ => Throw (lit "spawn soffice ENOENT") |}.

Definition letter_upload : Route.Request :=
  Route.WithForm
    {| Route.form_file := Some (Route.FFile Sample.letter);
       Route.form_targetExt := Some (lit ".pdf");
       Route.form_sourceExt := Some (lit ".docx") |}.

(** Surroundings in which every page renders and is recognized. *)
Definition scanner (pdf : PdfDocument) : World :=
  {| now_toLocaleString := lit "1/2/2026, 10:00:00 AM";
     has_document := true;
     pdf_getDocument := fun _ _ => Ok pdf;
     render := fun _ => Rendered 1224 1584 [];
     recognize := fun _ => Ok (lit "  Scanned words  ");
     fetch_convert := fun _ => Ok Sample.response_ok |}.


Definition no_json : jsstring -> option (list jsstring) -> bytes := fun _ _ => [].

Definition idle_view : Run.View :=
  {| Run.status := Run.idle; Run.errorMsg := None; Run.downloadUrl := None;
     Run.fileName := [] |}.

End MoreSample.

(** * Properties *)

(** ** The policy gate of [convertDocument] *)

Section Gate.

Variable L : Libs.
Variable W : World.

Lemma no_network_throw {A} (msg : jsstring) : no_network (@throw A msg).
Proof. constructor. Qed.

Lemma fails_throw {A} (msg : jsstring) : fails (@throw A msg).
Proof. by exists msg. Qed.

(** Past the two gates, server mode is the server path and nothing else. *)
Lemma convertDocument_server (s : State) file src tgt :
  useServer s = true ->
  health_not_ok s = false ->
  ~ (src = PDF /\ (tgt = DOCX \/ tgt = ODT)) ->
  convertDocument L W s file src tgt = server_convert W file src tgt.
Proof.
  intros Hs Hh Hpair. unfold convertDocument. rewrite Hs, Hh. simpl.
  destruct (bool_decide (src = PDF) && (bool_decide (tgt = DOCX) || bool_decide (tgt = ODT)))
    eqn:E; [|done].
  exfalso. apply Hpair.
  apply andb_prop in E as [E1 E2]. apply bool_decide_eq_true in E1.
  apply orb_prop in E2 as [E2|E2]; apply bool_decide_eq_true in E2; auto.
Qed.

(** The server path starts with the request, whatever comes back. *)
Lemma server_convert_trace file src tgt :
  trace (server_convert W file src tgt)
  = [EvFetch (lit "/api/convert")
       {| fd_file := file; fd_targetExt := extMap tgt; fd_sourceExt := extMap src |}].
Proof.
  unfold server_convert, trace, bind, emit, lift. simpl.
  destruct (fetch_convert W _) as [resp|msg]; simpl; [|done].
  by destruct (negb (resp_ok resp)).
Qed.

(** The blocked pair in server mode: which error, with an empty log. *)
Lemma convertDocument_blocked (s : State) file tgt :
  useServer s = true ->
  tgt = DOCX \/ tgt = ODT ->
  convertDocument L W s file PDF tgt
  = throw (if health_not_ok s then unavailable_msg else blocked_pair_msg).
Proof.
  intros Hs Ht. unfold convertDocument. rewrite Hs.
  destruct (health_not_ok s); simpl; [done|].
  by destruct Ht as [->| ->].
Qed.

(** C1: in server mode a conversion from PDF to DOCX or to ODT throws
    without any event in its log, hence before any network request, and
    it does so for every value of the health state: nothing recorded,
    healthy or unavailable.  The message is that of the first gate when
    the recorded health is not ok, and that of the blocked pair otherwise. *)
Theorem server_pdf_pair_blocked (s : State) (file : File) (tgt : ConversionFormat) :
  useServer s = true ->
  tgt = DOCX \/ tgt = ODT ->
  convertDocument L W s file PDF tgt
  = throw (if health_not_ok s then unavailable_msg else blocked_pair_msg)
  /\ fails (convertDocument L W s file PDF tgt)
  /\ no_network (convertDocument L W s file PDF tgt).
Proof.
  intros Hs Ht. rewrite (convertDocument_blocked s file tgt Hs Ht).
  split; [done|]. split; [apply fails_throw | apply no_network_throw].
Qed.

(** What the health route reports as unavailable is what the gate reads. *)
Lemma health_report_unavailable (flag : bool) (msg : jsstring) :
  available (server (health_report flag msg)) = false
  <-> ok (health_report flag msg) = false.
Proof. done. Qed.

(** C3: in server mode, when the last recorded health status is not ok
    (for a status that came from the health route: when it reports the
    server unavailable), [convertDocument] throws the "unavailable" error
    with an empty log: no network request is issued, for every pair of
    formats. *)
Theorem server_unavailable_fails (s : State) (h : Health) file src tgt :
  useServer s = true ->
  health s = Some h ->
  ok h = false ->
  convertDocument L W s file src tgt = throw unavailable_msg
  /\ no_network (convertDocument L W s file src tgt).
Proof.
  intros Hs Hh Hok.
  assert (E : convertDocument L W s file src tgt = throw unavailable_msg).
  { unfold convertDocument, health_not_ok. by rewrite Hs, Hh, Hok. }
  rewrite E. split; [done | apply no_network_throw].
Qed.

(** C9, as amended: in server mode with no health result recorded the
    availability gate does not fire.  Unless the pair is PDF to DOCX or
    ODT, [convertDocument] is then the server path, whose log starts with
    the POST to [/api/convert] carrying the file and both extensions; for
    the blocked pair it throws the blocked-pair error instead and issues
    no request. *)
Theorem server_without_health_record (s : State) file src tgt :
  useServer s = true ->
  health s = None ->
  (~ (src = PDF /\ (tgt = DOCX \/ tgt = ODT)) ->
     convertDocument L W s file src tgt = server_convert W file src tgt
     /\ trace (convertDocument L W s file src tgt)
        = [EvFetch (lit "/api/convert")
             {| fd_file := file; fd_targetExt := extMap tgt; fd_sourceExt := extMap src |}])
  /\ (src = PDF /\ (tgt = DOCX \/ tgt = ODT) ->
     convertDocument L W s file src tgt = throw blocked_pair_msg).
Proof.
  intros Hs Hh.
  assert (Hn : health_not_ok s = false) by (unfold health_not_ok; by rewrite Hh).
  split.
  - intros Hpair. rewrite convertDocument_server by done.
    split; [done | apply server_convert_trace].
  - intros [-> Ht].
    by rewrite (convertDocument_blocked s file tgt Hs Ht), Hn.
Qed.

End Gate.

(** ** Text extraction *)

Section Extraction.

Variable L : Libs.
Variable W : World.

Lemma bind_ret {A B} (a : A) (k : A -> M B) : bind (ret a) k = k a.
Proof. unfold bind, ret. by destruct (k a). Qed.

Lemma bind_lift_Ok {A B} (a : A) (k : A -> M B) : bind (lift (Ok a)) k = k a.
Proof. apply bind_ret. Qed.

Lemma trace_bind {A B} (m : M A) (k : A -> M B) :
  trace (bind m k)
  = trace m ++ match outcome m with Ok a => trace (k a) | Throw _ => [] end.
Proof.
  destruct m as [[a|msg] log]; unfold bind, trace, outcome; simpl.
  - by destruct (k a).
  - by rewrite app_nil_r.
Qed.

(** A page never makes the extraction throw. *)
Lemma extract_page_ok (i : nat) (page : PdfPage) :
  exists text, outcome (extract_page W i page) = Ok text.
Proof.
  unfold extract_page.
  destruct (needsOCR (page_text page) && has_document W); [|by eexists].
  destruct (render W i); try by eexists.
  destruct (recognize W i) as [text|msg]; [|by eexists].
  destruct (truthy (trim text)); by eexists.
Qed.

(** The OCR path of a page leaves its mark in the log of that page only,
    and exactly when [needsOCR] holds where there is a [document]. *)
Lemma extract_page_ocr (i j : nat) (page : PdfPage) :
  In (EvOcrPath j) (trace (extract_page W i page))
  <-> j = i /\ needsOCR (page_text page) = true /\ has_document W = true.
Proof.
  unfold extract_page.
  destruct (needsOCR (page_text page)), (has_document W); simpl;
    try (split; [intros [] | intros (_ & ? & ?); done]).
  destruct (render W i); [| |destruct (recognize W i) as [text|msg];
                               [destruct (truthy (trim text))|]];
    simpl; split; intros H;
    try (destruct H as [H|H]; [injection H as ->; done|]);
    try (repeat destruct H as [H|H]; try done);
    try (destruct H as (-> & _); by left).
Qed.

(** Without OCR a page gives its text layer, silently. *)
Lemma extract_page_plain (i : nat) (page : PdfPage) :
  needsOCR (page_text page) = false ->
  extract_page W i page = ret (page_text page).
Proof. intros H. unfold extract_page. by rewrite H. Qed.

Lemma extract_pages_ocr (n j : nat) (pages : list PdfPage) :
  forall (i : nat) (out : jsstring),
  In (EvOcrPath j) (trace (extract_pages W n i pages out))
  <-> has_document W = true
      /\ exists page, i <= j /\ pages !! (j - i) = Some page
                      /\ needsOCR (page_text page) = true.
Proof.
  induction pages as [|page rest IH]; intros i out.
  - simpl. split; [intros [] | intros (_ & p & _ & H & _); done].
  - cbn [extract_pages]. rewrite trace_bind, in_app_iff, extract_page_ocr.
    destruct (extract_page_ok i page) as [text ->]. rewrite IH. split.
    + intros [(-> & Hn & Hd) | (Hd & p & Hle & Hp & Hn)].
      * split; [done|]. exists page. by rewrite Nat.sub_diag.
      * split; [done|]. exists p. split; [lia|]. split; [|done].
        replace (j - i) with (S (j - S i)) by lia. done.
    + intros (Hd & p & Hle & Hp & Hn).
      destruct (decide (j = i)) as [->|Hne].
      * left. rewrite Nat.sub_diag in Hp. injection Hp as ->. done.
      * right. split; [done|]. exists p. split; [lia|]. split; [|done].
        replace (j - i) with (S (j - S i)) in Hp by lia. done.
Qed.

Lemma needsOCR_spec (pageText : jsstring) :
  needsOCR pageText = true
  <-> length (trim pageText) < 20 \/ 5 * alnumCount pageText < length pageText.
Proof.
  unfold needsOCR. by rewrite orb_true_iff, !Nat.ltb_lt.
Qed.

(** The integer form of the density test is the double-precision one, on
    every text of up to 256 characters and every count of alphanumerics. *)
Lemma density_low_double_agrees :
  forallb
    (fun len =>
       forallb
         (fun count => Bool.eqb (density_low_double count len) (5 * count <? len))
         (seq 0 (S len)))
    (seq 0 257)
  = true.
Proof. vm_compute. reflexivity. Qed.

Lemma extractText_pdf_trace (file : File) (pdf : PdfDocument) :
  pdf_getDocument W true file = Ok pdf ->
  trace (extractText L W file PDF) = trace (extract_pages W (length pdf) 1 pdf []).
Proof.
  intros Hpdf. cbn [extractText]. rewrite Hpdf.
  rewrite trace_bind. cbn [lift trace outcome fst snd app].
  rewrite trace_bind. destruct (outcome _); apply app_nil_r.
Qed.

(** C2, as amended: while a loaded PDF is extracted, the OCR fallback is
    entered for page [j] if and only if the page runs where there is a
    [document] (a browser) and its text-layer output either has fewer
    than 20 characters once leading and trailing whitespace is trimmed,
    or has fewer than 20% alphanumeric characters (counted against the
    untrimmed length).  A page whose trimmed text has 20 characters or
    more and whose characters are at least 20% alphanumeric never enters
    the OCR path. *)
Theorem ocr_fallback_trigger (file : File) (pdf : PdfDocument) (j : nat) :
  pdf_getDocument W true file = Ok pdf ->
  In (EvOcrPath j) (trace (extractText L W file PDF))
  <-> has_document W = true
      /\ exists page, 1 <= j /\ pdf !! (j - 1) = Some page
           /\ (length (trim (page_text page)) < 20
               \/ 5 * alnumCount (page_text page) < length (page_text page)).
Proof.
  intros Hpdf. rewrite (extractText_pdf_trace file pdf Hpdf), extract_pages_ocr.
  split; intros (Hd & page & Hle & Hp & Hn); (split; [done|]); exists page;
    (split; [done|]); (split; [done|]); by apply needsOCR_spec.
Qed.

(** *** Pages with a full text layer *)

Lemma toPlain_filter (s : jsstring) : toPlain s = filter (fun c => c ≠ 0%N) s.
Proof.
  unfold toPlain, replace_all.
  induction s as [|c s IH]; [done|].
  cbn [replace_from]. unfold Re.nul, Re.one_of at 1.
  destruct (N.eqb_spec c 0) as [->|Hc].
  - rewrite filter_cons_False by (intros H; by apply H). simpl. exact IH.
  - rewrite filter_cons_True by done. f_equal. apply IH.
Qed.

Lemma toPlain_id (s : jsstring) : Forall (fun c => c ≠ 0%N) s -> toPlain s = s.
Proof.
  rewrite toPlain_filter. induction 1 as [|c s Hc _ IH]; [done|].
  rewrite filter_cons_True by done. by rewrite IH.
Qed.

Lemma join_Forall (P : char16 -> Prop) (sep : jsstring) (parts : list jsstring) :
  Forall P sep -> Forall (Forall P) parts -> Forall P (join sep parts).
Proof.
  intros Hsep. induction 1 as [|p rest Hp Hrest IH]; [constructor|].
  destruct rest as [|q rest]; [done|].
  change (join sep (p :: q :: rest)) with (p ++ sep ++ join sep (q :: rest)).
  by rewrite !Forall_app.
Qed.

Lemma join_head_In (c : char16) (sep p : jsstring) (rest : list jsstring) :
  In c p -> In c (join sep (p :: rest)).
Proof.
  intros H. destruct rest as [|q rest]; [done|].
  change (In c (p ++ sep ++ join sep (q :: rest))). apply in_or_app. by left.
Qed.

Lemma drop_space_In (c : char16) (s : jsstring) :
  In c s -> is_space c = false -> In c (drop_space s).
Proof.
  intros Hin Hc. induction s as [|x s IH]; [done|].
  simpl. destruct (is_space x) eqn:Hx; [|done].
  destruct Hin as [->|Hin]; [congruence | by apply IH].
Qed.

Lemma trim_In (c : char16) (s : jsstring) :
  In c s -> is_space c = false -> In c (trim s).
Proof.
  intros Hin Hc. unfold trim. apply in_rev. rewrite rev_involutive.
  apply drop_space_In; [|done]. apply in_rev. rewrite rev_involutive.
  by apply drop_space_In.
Qed.

Lemma is_alnum_visible (c : char16) :
  is_alnum c = true -> is_space c = false /\ c ≠ 0%N.
Proof.
  unfold is_alnum, is_alpha, is_upper, is_lower, is_digit, in_range.
  rewrite !orb_true_iff, !andb_true_iff, !N.leb_le. intros H. split.
  - apply not_true_iff_false. unfold is_space, in_range.
    rewrite !orb_true_iff, !andb_true_iff, !N.leb_le, !N.eqb_eq. lia.
  - lia.
Qed.

Lemma alnumCount_pos (s : jsstring) :
  0 < alnumCount s -> exists c, In c s /\ is_alnum c = true.
Proof.
  unfold alnumCount. intros H.
  destruct (filter (fun c => is_alnum c = true) s) as [|c r] eqn:E; [simpl in H; lia|].
  assert (Hc : c ∈ filter (fun c => is_alnum c = true) s) by (rewrite E; left).
  apply list_elem_of_filter in Hc as [Hc Hin]. exists c.
  by rewrite <- list_elem_of_In.
Qed.

(** A page that does not need OCR has a character that survives
    [toPlain] and [trim]. *)
Lemma full_layer_visible (pageText : jsstring) :
  needsOCR pageText = false ->
  exists c, In c pageText /\ is_space c = false /\ c ≠ 0%N.
Proof.
  intros H. apply not_true_iff_false in H. rewrite needsOCR_spec in H.
  assert (Hlen : 0 < length pageText).
  { destruct pageText; [|simpl; lia]. exfalso. apply H. left. simpl. lia. }
  destruct (alnumCount_pos pageText) as (c & Hin & Hc); [lia|].
  exists c. split; [done|]. by apply is_alnum_visible.
Qed.

Lemma extract_pages_plain (n : nat) (pages : list PdfPage) :
  forall (i : nat) (out : jsstring),
  Forall (fun page => needsOCR (page_text page) = false) pages ->
  i + length pages = S n ->
  extract_pages W n i pages out = ret (out ++ join (nl ++ nl) (map page_text pages)).
Proof.
  induction pages as [|page rest IH]; intros i out Hall Hn.
  - simpl. by rewrite app_nil_r.
  - apply Forall_cons in Hall as [Hp Hrest].
    cbn [extract_pages]. rewrite (extract_page_plain i page Hp), bind_ret.
    destruct rest as [|q rest].
    + simpl in Hn. assert (i = n) as -> by lia.
      rewrite Nat.ltb_irrefl. simpl. by rewrite !app_nil_r.
    + rewrite IH; [|done|simpl in *; lia].
      assert (Hlt : (i <? n) = true) by (apply Nat.ltb_lt; simpl in Hn; lia).
      rewrite Hlt. f_equal. cbn [map].
      change (join (nl ++ nl) (page_text page :: page_text q :: map page_text rest))
        with (page_text page ++ (nl ++ nl)
              ++ join (nl ++ nl) (page_text q :: map page_text rest)).
      by rewrite <- !app_assoc.
Qed.

Lemma full_layer_text_truthy (pdf : PdfDocument) :
  pdf ≠ [] ->
  Forall (fun page => needsOCR (page_text page) = false) pdf ->
  truthy (trim (toPlain (join (nl ++ nl) (map page_text pdf)))) = true.
Proof.
  intros Hne Hall. destruct pdf as [|page rest]; [done|].
  apply Forall_cons in Hall as [Hp _].
  destruct (full_layer_visible _ Hp) as (c & Hin & Hsp & Hc0).
  assert (Hc : In c (trim (toPlain (join (nl ++ nl) (map page_text (page :: rest)))))).
  { apply trim_In; [|done]. rewrite toPlain_filter.
    apply list_elem_of_In, list_elem_of_filter. split; [done|].
    apply list_elem_of_In. cbn [map]. by apply join_head_In. }
  by destruct (trim _).
Qed.

(** C4, as amended: when every page of a loaded PDF has a full text layer
    (no page needs OCR), extraction returns, with an empty log, the pages'
    texts in page order joined by ["\n\n"] (none after the last page) with
    every NUL character removed; without NUL characters in the pages that
    is the joined text itself.  For such a PDF with at least one page the
    client-side conversion to TXT is a [text/plain] blob holding the
    provenance header followed by that extracted text. *)
Theorem full_text_layer_extraction (s : State) (file : File) (pdf : PdfDocument) :
  pdf_getDocument W true file = Ok pdf ->
  Forall (fun page => needsOCR (page_text page) = false) pdf ->
  extractText L W file PDF = ret (toPlain (join (nl ++ nl) (map page_text pdf)))
  /\ (Forall (fun page => Forall (fun c => c ≠ 0%N) (page_text page)) pdf ->
      toPlain (join (nl ++ nl) (map page_text pdf)) = join (nl ++ nl) (map page_text pdf))
  /\ (pdf ≠ [] -> useServer s = false ->
      convertDocument L W s file PDF TXT
      = ret {| blob_data :=
                 BText (header W file PDF TXT
                        ++ toPlain (join (nl ++ nl) (map page_text pdf)));
               blob_type := lit "text/plain" |}).
Proof.
  intros Hpdf Hall.
  assert (E : extractText L W file PDF
              = ret (toPlain (join (nl ++ nl) (map page_text pdf)))).
  { cbn [extractText]. rewrite Hpdf, bind_lift_Ok.
    rewrite (extract_pages_plain (length pdf) pdf 1 [] Hall) by done.
    by rewrite bind_ret. }
  split; [done|]. split.
  - intros Hnul. apply toPlain_id, join_Forall.
    + by repeat constructor.
    + by apply Forall_map.
  - intros Hne Hs. unfold convertDocument. rewrite Hs. cbn [andb].
    rewrite E, bind_ret. unfold full.
    by rewrite (full_layer_text_truthy pdf Hne Hall).
Qed.

(** *** DOCX and ODT containers *)


End Extraction.

(** ** The client-side path *)

Section Client.

Variable L : Libs.

(** With server mode off and no layout-preserving PDF to DOCX request,
    [convertDocument] extracts and builds. *)
Lemma convertDocument_client (W : World) (s : State) file src tgt :
  useServer s = false ->
  ~ (src = PDF /\ tgt = DOCX /\ preserveLayout s = true) ->
  convertDocument L W s file src tgt
  = bind (extractText L W file src)
      (fun text => ret (build L tgt (full (header W file src tgt) text))).
Proof.
  intros Hs Hlay. unfold convertDocument. rewrite Hs. cbn [andb].
  destruct (bool_decide (src = PDF) && bool_decide (tgt = DOCX) && preserveLayout s)
    eqn:E; [|done].
  exfalso. apply Hlay.
  apply andb_prop in E as [E E3]. apply andb_prop in E as [E1 E2].
  apply bool_decide_eq_true in E1, E2. done.
Qed.

Lemma header_date_inj (W1 W2 : World) file src tgt (body : jsstring) :
  header W1 file src tgt ++ body = header W2 file src tgt ++ body ->
  now_toLocaleString W1 = now_toLocaleString W2.
Proof.
  unfold header. rewrite <- !app_assoc. intros H.
  repeat (apply app_inv_head in H).
  by apply app_inv_tail in H.
Qed.

Lemma header_date_eq (W1 W2 : World) file src tgt :
  now_toLocaleString W1 = now_toLocaleString W2 ->
  header W1 file src tgt = header W2 file src tgt.
Proof. unfold header. by intros ->. Qed.

Lemma ret_text_inj (x y ty : jsstring) :
  @ret Blob {| blob_data := BText x; blob_type := ty |}
  = ret {| blob_data := BText y; blob_type := ty |} ->
  x = y.
Proof. unfold ret. congruence. Qed.

(** C5, as amended: for a TXT input the client-side conversion to TXT
    returns a [text/plain] blob holding the provenance header followed by
    the text (or by the placeholder when the text is blank), with an empty
    log.  The header carries the conversion date, so two runs on the same
    file are byte-for-byte identical if and only if the clock renders the
    same date string in both; nothing else of the surroundings or of the
    page state changes the output. *)
Theorem txt_conversion_repeatable (W1 W2 : World) (s1 s2 : State) (file : File) :
  useServer s1 = false ->
  useServer s2 = false ->
  convertDocument L W1 s1 file TXT TXT
  = ret {| blob_data := BText (full (header W1 file TXT TXT)
                                 (utf8_decode L (file_bytes file)));
           blob_type := lit "text/plain" |}
  /\ (convertDocument L W1 s1 file TXT TXT = convertDocument L W2 s2 file TXT TXT
      <-> now_toLocaleString W1 = now_toLocaleString W2).
Proof.
  intros H1 H2.
  assert (E : forall W s, useServer s = false ->
     convertDocument L W s file TXT TXT
     = ret {| blob_data := BText (full (header W file TXT TXT)
                                    (utf8_decode L (file_bytes file)));
              blob_type := lit "text/plain" |}).
  { intros W s Hs. rewrite convertDocument_client; [|done|by intros [? _]].
    cbn [extractText]. by rewrite bind_ret. }
  split; [by apply E|]. rewrite (E W1 s1 H1), (E W2 s2 H2). split.
  - intros H. apply ret_text_inj in H. unfold full in H. by apply header_date_inj in H.
  - intros H. by rewrite (header_date_eq W1 W2 file TXT TXT H).
Qed.





End Client.

(** ** The selectors *)

Section Selectors.

Variable L : Libs.

Import UI.

(** The effect leaves a target that differs from the source, keeps the
    source, and does nothing unless the two collide. *)
Lemma effect_settles (p : Page) :
  targetFormat (st (effect p)) ≠ sourceFormat (st (effect p))
  /\ sourceFormat (st (effect p)) = sourceFormat (st p)
  /\ (targetFormat (st p) ≠ sourceFormat (st p) -> effect p = p).
Proof.
  destruct p as [[src tgt lay srv h] hl]. unfold effect. cbn [st sourceFormat targetFormat].
  destruct (bool_decide (tgt = src)) eqn:E.
  - apply bool_decide_eq_true in E as ->. split; [|split; [done|done]].
    by destruct src.
  - apply bool_decide_eq_false in E. done.
Qed.

Lemma targetOptions_spec (p : Page) (f : ConversionFormat) :
  f ∈ targetOptions p <-> f ≠ sourceFormat (st p).
Proof.
  unfold targetOptions. rewrite list_elem_of_filter. split; [by intros [? _]|].
  intros H. split; [done|]. unfold formatOptions. destruct f; set_solver.
Qed.

(** C7: in every page state reached from the initial one by user and
    network events (each handler followed by the effect), the target
    format differs from the source format, the source format is not among
    the choices of the target selector and the current target is; the
    effect never touches the source and changes the target only when a
    handler left the two equal. *)
Theorem target_never_source (p : Page) :
  reachable L p ->
  targetFormat (st p) ≠ sourceFormat (st p)
  /\ (sourceFormat (st p) ∉ targetOptions p)
  /\ (targetFormat (st p) ∈ targetOptions p)
  /\ forall m : Msg,
       sourceFormat (st (step L m p)) = sourceFormat (st (handle L m p))
       /\ (targetFormat (st (handle L m p)) ≠ sourceFormat (st (handle L m p)) ->
           step L m p = handle L m p).
Proof.
  intros Hreach.
  assert (Hne : targetFormat (st p) ≠ sourceFormat (st p)).
  { destruct Hreach as [|m q _]; [unfold step|]; apply effect_settles. }
  split; [done|]. split; [|split].
  - rewrite targetOptions_spec. by intros H; apply H.
  - by rewrite targetOptions_spec.
  - intros m. unfold step. split; apply effect_settles.
Qed.

End Selectors.

(** ** The endpoint *)

Section Endpoint.

Import Route.

Variable H : Host.


End Endpoint.

(** ** The statements at work on sample inputs *)

Section Instances.

Import Sample.

Lemma server_pdf_pair_blocked_witness :
  useServer (state true (Some down)) = true
  /\ (DOCX = DOCX \/ DOCX = ODT)
  /\ no_network (convertDocument libs morning (state true (Some down)) report PDF DOCX).
Proof.
  split; [reflexivity|]. split; [by left|].
  apply (server_pdf_pair_blocked libs morning (state true (Some down)) report DOCX);
    [reflexivity | by left].
Defined.

Lemma server_unavailable_fails_witness :
  useServer (state true (Some down)) = true
  /\ health (state true (Some down)) = Some down
  /\ ok down = false
  /\ convertDocument libs morning (state true (Some down)) notes TXT PDF
     = throw unavailable_msg.
Proof.
  repeat (split; [reflexivity|]).
  apply (server_unavailable_fails libs morning (state true (Some down)) down notes TXT PDF);
    reflexivity.
Defined.

Lemma server_without_health_record_witness :
  useServer (state true None) = true
  /\ health (state true None) = None
  /\ trace (convertDocument libs morning (state true None) notes TXT PDF)
     = [EvFetch (lit "/api/convert")
          {| fd_file := notes; fd_targetExt := lit ".pdf"; fd_sourceExt := lit ".txt" |}].
Proof.
  repeat (split; [reflexivity|]).
  destruct (server_without_health_record libs morning (state true None) notes TXT PDF
              eq_refl eq_refl) as [Hserver _].
  apply Hserver. intros [Hsrc _]. discriminate Hsrc.
Defined.

(** C9 as stated fails for the blocked pair: server mode, nothing recorded
    about health, and yet no request leaves the page. *)
Lemma no_request_for_blocked_pair_without_health :
  useServer (state true None) = true
  /\ health (state true None) = None
  /\ convertDocument libs morning (state true None) report PDF DOCX = throw blocked_pair_msg
  /\ trace (convertDocument libs morning (state true None) report PDF DOCX) = [].
Proof. repeat split. Qed.

Lemma ocr_fallback_trigger_witness :
  pdf_getDocument (world "" [padded_page; dense_page 2]) true report
  = Ok [padded_page; dense_page 2]
  /\ (In (EvOcrPath 1)
        (trace (extractText libs (world "" [padded_page; dense_page 2]) report PDF))
      <-> has_document (world "" [padded_page; dense_page 2]) = true
          /\ exists page, 1 <= 1 /\ [padded_page; dense_page 2] !! (1 - 1) = Some page
               /\ (length (trim (page_text page)) < 20
                   \/ 5 * alnumCount (page_text page) < length (page_text page))).
Proof.
  split; [reflexivity|].
  apply (ocr_fallback_trigger libs (world "" [padded_page; dense_page 2]) report
           [padded_page; dense_page 2] 1).
  reflexivity.
Defined.

(** C2 as stated fails on a page whose text layer has 24 characters, half
    of them letters: neither "fewer than 20 characters" nor "fewer than
    20% alphanumeric" holds of the text-layer output, and the OCR path is
    entered all the same, because only 12 characters are left after
    trimming. *)
Lemma ocr_entered_on_padded_page :
  length (page_text padded_page) = 24
  /\ alnumCount (page_text padded_page) = 12
  /\ ~ (length (page_text padded_page) < 20
        \/ 5 * alnumCount (page_text padded_page) < length (page_text padded_page))
  /\ In (EvOcrPath 1) (trace (extractText libs (world "" [padded_page]) report PDF)).
Proof.
  split; [reflexivity|]. split; [reflexivity|]. split.
  - vm_compute. lia.
  - vm_compute. by left.
Qed.

Lemma full_text_layer_extraction_witness :
  pdf_getDocument (world "" three_pages) true report = Ok three_pages
  /\ Forall (fun page => needsOCR (page_text page) = false) three_pages
  /\ extractText libs (world "" three_pages) report PDF
     = ret (toPlain (join (nl ++ nl) (map page_text three_pages))).
Proof.
  split; [reflexivity|].
  assert (Hall : Forall (fun page => needsOCR (page_text page) = false) three_pages)
    by (repeat constructor).
  split; [exact Hall|].
  apply (full_text_layer_extraction libs (world "" three_pages) (state false None)
           report three_pages eq_refl Hall).
Defined.

(** C4 as stated fails on a one-page PDF with a full text layer that
    carries a NUL character: what extraction returns is not the page's
    text. *)
Lemma nul_is_dropped_from_full_text_layer :
  needsOCR (page_text nul_page) = false
  /\ outcome (extractText libs (world "" [nul_page]) report PDF)
     ≠ Ok (join (nl ++ nl) (map page_text [nul_page])).
Proof. split; [reflexivity|]. vm_compute. discriminate. Qed.

Lemma txt_conversion_repeatable_witness :
  useServer (state false None) = false
  /\ useServer (state false (Some down)) = false
  /\ (convertDocument libs morning (state false None) notes TXT TXT
      = convertDocument libs (world "1/2/2026, 10:00:01 AM" [])
          (state false (Some down)) notes TXT TXT
      <-> now_toLocaleString morning
          = now_toLocaleString (world "1/2/2026, 10:00:01 AM" [])).
Proof.
  repeat (split; [reflexivity|]).
  apply (txt_conversion_repeatable libs morning (world "1/2/2026, 10:00:01 AM" [])
           (state false None) (state false (Some down)) notes);
    reflexivity.
Defined.

(** C5 as stated fails when the clock moves between two runs: the same
    file converted one second later gives another output. *)
Lemma rerun_one_second_later_differs :
  convertDocument libs (world "1/2/2026, 10:00:00 AM" []) (state false None) notes TXT TXT
  ≠ convertDocument libs (world "1/2/2026, 10:00:01 AM" []) (state false None) notes TXT TXT.
Proof. vm_compute. discriminate. Qed.




Lemma target_never_source_witness :
  UI.reachable libs (UI.step libs (UI.SelectSource PDF) (UI.effect UI.initial))
  /\ targetFormat (UI.st (UI.step libs (UI.SelectSource PDF) (UI.effect UI.initial)))
     ≠ sourceFormat (UI.st (UI.step libs (UI.SelectSource PDF) (UI.effect UI.initial))).
Proof.
  assert (Hreach : UI.reachable libs
                     (UI.step libs (UI.SelectSource PDF) (UI.effect UI.initial)))
    by (apply UI.reach_step, UI.reach_initial).
  split; [exact Hreach|].
  apply (target_never_source libs _ Hreach).
Defined.


End Instances.

(** * Further properties of the code *)

(** ** Scanning with a pattern *)

Section Scanning.

(** What a global replace leaves is made of the replacement and of
    characters of the subject. *)
Lemma replace_from_Forall (P : N -> Prop) (m : matcher) (rep : jsstring) :
  Forall P rep ->
  forall (s : jsstring) (skip : nat), Forall P s -> Forall P (replace_from m rep skip s).
Proof.
  intros Hrep. induction s as [|c s IH]; intros skip Hs; [constructor|].
  apply Forall_cons in Hs as [Hc Hs]. cbn [replace_from].
  destruct skip as [|k]; [|by apply IH].
  destruct (m (c :: s)) as [[|n]|].
  - constructor; [done | by apply IH].
  - apply Forall_app. split; [done | by apply IH].
  - constructor; [done | by apply IH].
Qed.

(** A character that is left standing is one the pattern did not match at. *)
Lemma replace_from_unmatched (P : N -> Prop) (m : matcher) (rep : jsstring) :
  Forall P rep ->
  (forall c s, (forall n, m (c :: s) ≠ Some (S n)) -> P c) ->
  forall (s : jsstring) (skip : nat), Forall P (replace_from m rep skip s).
Proof.
  intros Hrep Hm. induction s as [|c s IH]; intros skip; [constructor|].
  cbn [replace_from]. destruct skip as [|k]; [|apply IH].
  destruct (m (c :: s)) as [[|n]|] eqn:E.
  - constructor; [|apply IH]. apply (Hm c s). intros n. by rewrite E.
  - apply Forall_app. split; [done | apply IH].
  - constructor; [|apply IH]. apply (Hm c s). intros n. by rewrite E.
Qed.

(** Replacing the characters of a class one by one. *)
Lemma replace_one_of (f : N -> bool) (rep s : jsstring) :
  replace_all (Re.one_of f) rep s = flat_map (fun c => if f c then rep else [c]) s.
Proof.
  unfold replace_all. induction s as [|c s IH]; [done|].
  cbn [replace_from flat_map]. unfold Re.one_of at 1.
  destruct (f c); [by rewrite IH | by rewrite IH].
Qed.

Lemma flat_map_flat_map (f g : N -> jsstring) (s : jsstring) :
  flat_map g (flat_map f s) = flat_map (fun c => flat_map g (f c)) s.
Proof.
  induction s as [|c s IH]; [done|].
  cbn [flat_map]. by rewrite flat_map_app, IH.
Qed.

Lemma span_len_take (f : N -> bool) (s : jsstring) :
  Forall (fun c => f c = true) (take (span_len f s) s).
Proof.
  induction s as [|c s IH]; [constructor|].
  cbn [span_len]. destruct (f c) eqn:E; [|constructor].
  cbn [take]. by constructor.
Qed.

End Scanning.

(** ** Which path runs *)

Section Dispatch.

Variable L : Libs.
Variable W : World.

Lemma extract_page_no_fetch (i : nat) (page : PdfPage) :
  Forall (fun e => is_fetch e = false) (trace (extract_page W i page)).
Proof.
  unfold extract_page.
  destruct (needsOCR (page_text page) && has_document W); [|constructor].
  destruct (render W i); [| |destruct (recognize W i) as [text|msg];
                               [destruct (truthy (trim text))|]];
    repeat constructor.
Qed.

Lemma extract_pages_no_fetch (n : nat) (pages : list PdfPage) :
  forall (i : nat) (out : jsstring),
  Forall (fun e => is_fetch e = false) (trace (extract_pages W n i pages out)).
Proof.
  induction pages as [|page rest IH]; intros i out; [constructor|].
  cbn [extract_pages]. rewrite trace_bind. apply Forall_app. split.
  - apply extract_page_no_fetch.
  - destruct (outcome _); [apply IH | constructor].
Qed.

Lemma extractText_no_fetch (file : File) (fmt : ConversionFormat) :
  Forall (fun e => is_fetch e = false) (trace (extractText L W file fmt))
  /\ (fmt ≠ PDF -> trace (extractText L W file fmt) = []).
Proof.
  destruct fmt; cbn [extractText].
  - split; [|done]. destruct (pdf_getDocument W true file) as [pdf|msg]; [|constructor].
    rewrite bind_lift_Ok, trace_bind. apply Forall_app. split.
    + apply extract_pages_no_fetch.
    + destruct (outcome _); constructor.
  - assert (E : trace (zip <~ lift (jszip_loadAsync L (file_bytes file));;
                       match zip !! "word/document.xml"%string with
                       | Some docXml => if truthy docXml then ret (docx_text docXml) else ret []
                       | None => ret []
                       end)%js = []).
    { destruct (jszip_loadAsync L (file_bytes file)) as [zip|msg]; [|done].
      rewrite bind_lift_Ok. destruct (zip !! _) as [x|]; [|done]. by destruct (truthy x). }
    rewrite E. split; [constructor | done].
  - split; [constructor | done].
  - split; [constructor | done].
  - assert (E : trace (zip <~ lift (jszip_loadAsync L (file_bytes file));;
                       match zip !! "content.xml"%string with
                       | Some contentXml =>
                           if truthy contentXml then ret (odt_text contentXml) else ret []
                       | None => ret []
                       end)%js = []).
    { destruct (jszip_loadAsync L (file_bytes file)) as [zip|msg]; [|done].
      rewrite bind_lift_Ok. destruct (zip !! _) as [x|]; [|done]. by destruct (truthy x). }
    rewrite E. split; [constructor | done].
Qed.

(** The layout-preserving loop writes nothing to the log. *)
Lemma layout_pages_silent (n : nat) (pages : list PdfPage) :
  forall (i : nat) (children : list Paragraph),
  trace (layout_pages W n i pages children) = [].
Proof.
  induction pages as [|page rest IH]; intros i children; [done|].
  cbn [layout_pages]. destruct (has_document W); [|done]. cbn [negb].
  destruct (render W i); [apply IH | done | apply IH].
Qed.

(** X1: with server conversion switched off, no network request is ever
    issued, whatever the formats, the options and the file; the only
    calls that leave the page are those of the OCR fallback, and there is
    none at all unless the source is a PDF. *)
Theorem client_mode_stays_local (s : State) (file : File) (src tgt : ConversionFormat) :
  useServer s = false ->
  no_network (convertDocument L W s file src tgt)
  /\ (src ≠ PDF -> trace (convertDocument L W s file src tgt) = []).
Proof.
  intros Hs. unfold convertDocument, no_network. rewrite Hs. cbn [andb].
  destruct (bool_decide (src = PDF) && bool_decide (tgt = DOCX) && preserveLayout s) eqn:E.
  - assert (Ht : trace (pdf <~ lift (pdf_getDocument W false file);;
                        children <~ layout_pages W (length pdf) 1 pdf [];;
                        ret (packer_toBlob L children))%js = []).
    { destruct (pdf_getDocument W false file) as [pdf|msg]; [|done].
      rewrite bind_lift_Ok, trace_bind, layout_pages_silent.
      by destruct (outcome _). }
    rewrite Ht. split; [constructor | done].
  - rewrite trace_bind.
    destruct (extractText_no_fetch file src) as [Hnf Hnil]. split.
    + apply Forall_app. split; [done|]. destruct (outcome _); constructor.
    + intros Hsrc. rewrite (Hnil Hsrc). by destruct (outcome _).
Qed.

(** X2: with server conversion switched on, [convertDocument] never
    extracts text and never enters the OCR path: its log is empty or is
    the one POST to [/api/convert].  When it returns an artifact, the
    response was [ok] and the artifact is the response body, typed with
    the MIME type of the target format (not with the response's
    Content-Type). *)
Theorem server_mode_single_request (s : State) (file : File) (src tgt : ConversionFormat) :
  useServer s = true ->
  let form := {| fd_file := file; fd_targetExt := extMap tgt; fd_sourceExt := extMap src |} in
  (trace (convertDocument L W s file src tgt) = []
   \/ trace (convertDocument L W s file src tgt) = [EvFetch (lit "/api/convert") form])
  /\ forall blob : Blob,
       outcome (convertDocument L W s file src tgt) = Ok blob ->
       exists resp : Response,
         fetch_convert W form = Ok resp /\ resp_ok resp = true
         /\ blob = {| blob_data := BBytes (resp_arrayBuffer resp);
                      blob_type := getMimeType tgt |}.
Proof.
  intros Hs form. unfold convertDocument. rewrite Hs. cbn [andb].
  destruct (health_not_ok s); [split; [by left | done]|].
  destruct (bool_decide (src = PDF) && (bool_decide (tgt = DOCX) || bool_decide (tgt = ODT)));
    [split; [by left | done]|].
  split; [right; apply server_convert_trace|].
  intros blob. unfold server_convert, bind, emit, lift, outcome. cbn [fst snd].
  fold form. destruct (fetch_convert W form) as [resp|msg]; [|done].
  destruct (resp_ok resp) eqn:Hok; cbn [negb fst]; [|done].
  intros [= <-]. by exists resp.
Qed.

End Dispatch.

(** ** More on extraction *)

Section MoreExtraction.

Variable L : Libs.
Variable W : World.







Lemma toPlain_no_nul (s : jsstring) : Forall (fun c => c ≠ 0%N) (toPlain s).
Proof.
  rewrite toPlain_filter. apply Forall_forall. intros c Hc.
  by apply list_elem_of_filter in Hc as [Hc _].
Qed.

(** X5: for every source format but TXT the extracted text holds no
    NUL character (U+0000); a TXT source is returned as it was decoded,
    NUL characters included. *)
Theorem extracted_text_has_no_nul (file : File) (fmt : ConversionFormat) (text : jsstring) :
  outcome (extractText L W file fmt) = Ok text ->
  (fmt ≠ TXT -> Forall (fun c => c ≠ 0%N) text)
  /\ (fmt = TXT -> text = utf8_decode L (file_bytes file)).
Proof.
  intros Hx. split.
  - intros Hfmt. destruct fmt; cbn [extractText] in Hx; try done.
    + destruct (pdf_getDocument W true file) as [pdf|msg]; [|done].
      rewrite bind_lift_Ok in Hx.
      destruct (extract_pages W (length pdf) 1 pdf []) as [[out|msg] log]; [|done].
      injection Hx as <-. apply toPlain_no_nul.
    + destruct (jszip_loadAsync L (file_bytes file)) as [zip|msg]; [|done].
      rewrite bind_lift_Ok in Hx. destruct (zip !! _) as [x|].
      * destruct (truthy x); injection Hx as <-; [apply toPlain_no_nul | constructor].
      * injection Hx as <-. constructor.
    + injection Hx as <-. apply toPlain_no_nul.
    + destruct (jszip_loadAsync L (file_bytes file)) as [zip|msg]; [|done].
      rewrite bind_lift_Ok in Hx. destruct (zip !! _) as [x|].
      * destruct (truthy x); injection Hx as <-; [apply toPlain_no_nul | constructor].
      * injection Hx as <-. constructor.
  - intros ->. cbn [extractText] in Hx. by injection Hx as <-.
Qed.

(** X6: the text extracted from an RTF source holds no brace: every
    [{] and [}] of the file is dropped, the escaped ones too, and no later
    step brings one back. *)
Theorem rtf_text_has_no_brace (file : File) :
  exists text : jsstring,
    extractText L W file RTF = ret text
    /\ Forall (fun c => c ≠ 123%N /\ c ≠ 125%N) text.
Proof.
  eexists. split; [reflexivity|].
  rewrite toPlain_filter.
  assert (H : Forall (fun c => c ≠ 123%N /\ c ≠ 125%N)
                (rtf_strip (utf8_decode L (file_bytes file)))).
  { unfold rtf_strip, replace_all.
    do 4 (apply replace_from_Forall; [by repeat constructor|]).
    apply (replace_from_unmatched _ Re.braces []); [constructor|].
    intros c s Hm. unfold Re.braces, Re.one_of in Hm.
    destruct (N.eqb_spec c 123) as [->|H1]; [by specialize (Hm 0)|].
    destruct (N.eqb_spec c 125) as [->|H2]; [by specialize (Hm 0)|]. done. }
  apply Forall_forall. intros c Hc. apply list_elem_of_filter in Hc as [_ Hc].
  by apply (proj1 (Forall_forall _ _) H).
Qed.

End MoreExtraction.

(** ** The builders *)

Section Builders.

Variable L : Libs.

Lemma replace_char (c : N) (rep s : jsstring) :
  replace_all (Re.char c) rep s = flat_map (fun x => if (x =? c)%N then rep else [x]) s.
Proof. apply replace_one_of. Qed.

(** Settle an equation between per-character rewritings: the listed
    characters by evaluation, every other one by the failed tests. *)
Ltac split_on c k :=
  let E := fresh "E" in
  destruct (N.eqb_spec c k) as [->|E];
  [vm_compute; reflexivity | apply N.eqb_neq in E].

Ltac other_char :=
  repeat first
    [ progress (cbn [flat_map app orb])
    | match goal with
      | E : (_ =? _)%N = false |- _ => rewrite E
      end ];
  reflexivity.

(** X7: the three replacements of [esc], one after the other, put
    exactly one backslash in front of every backslash, [{] and [}] and
    change nothing else; the backslashes they add are not escaped again.
    In the RTF body every line feed then becomes [\par] and a line feed,
    between the preamble line and the closing brace. *)
Theorem rtf_escapes_each_character_once (body : jsstring) :
  esc body = flat_map rtf_escape body
  /\ rtf_of body
     = lit "{\rtf1\ansi" ++ nl
       ++ flat_map (fun c => if (c =? 10)%N then lit "\par" ++ nl else rtf_escape c) body
       ++ nl ++ lit "}".
Proof.
  assert (E : esc body = flat_map rtf_escape body).
  { unfold esc. rewrite !replace_char, !flat_map_flat_map.
    apply flat_map_ext. intros c. unfold rtf_escape.
    split_on c 92%N. split_on c 123%N. split_on c 125%N. other_char. }
  split; [done|]. unfold rtf_of. rewrite E, replace_char, flat_map_flat_map.
  do 2 f_equal. f_equal. apply flat_map_ext. intros c. unfold rtf_escape.
  split_on c 10%N. split_on c 92%N. split_on c 123%N. split_on c 125%N. other_char.
Qed.

Lemma split_char_cons (c : N) (s : jsstring) :
  exists p ps, split_char c s = p :: ps.
Proof.
  destruct s as [|x s]; [by eexists _, _|]. cbn [split_char].
  destruct (x =? c)%N; [by eexists _, _|].
  destruct (split_char c s); by eexists _, _.
Qed.

Lemma join_cons_char (sep p : jsstring) (x : N) (ps : list jsstring) :
  join sep ((x :: p) :: ps) = x :: join sep (p :: ps).
Proof. by destruct ps. Qed.

(** [split] on a character and [join] with it are inverse on the way back. *)
Lemma join_split_char (c : N) (s : jsstring) : join [c] (split_char c s) = s.
Proof.
  induction s as [|x s IH]; [done|]. cbn [split_char].
  destruct (N.eqb_spec x c) as [->|Hx].
  - destruct (split_char_cons c s) as (p & ps & E). rewrite E in *.
    change (join [c] ([] :: p :: ps)) with ([] ++ [c] ++ join [c] (p :: ps)).
    by rewrite IH.
  - destruct (split_char_cons c s) as (p & ps & E). rewrite E in *.
    by rewrite join_cons_char, IH.
Qed.

Lemma split_char_pieces (c : N) (s : jsstring) :
  Forall (Forall (fun x => x ≠ c)) (split_char c s).
Proof.
  induction s as [|x s IH]; [by repeat constructor|]. cbn [split_char].
  destruct (N.eqb_spec x c) as [->|Hx]; [by constructor|].
  destruct (split_char_cons c s) as (p & ps & E). rewrite E in *.
  apply Forall_cons in IH as [Hp Hps]. by repeat constructor.
Qed.

Lemma split_char_length (c : N) (s : jsstring) :
  length (split_char c s) = S (length (filter (fun x => x = c) s)).
Proof.
  induction s as [|x s IH]; [done|]. cbn [split_char].
  destruct (N.eqb_spec x c) as [->|Hx].
  - rewrite filter_cons_True by done. simpl. by rewrite IH.
  - rewrite filter_cons_False by done.
    destruct (split_char_cons c s) as (p & ps & E). by rewrite E in *.
Qed.

(** X9: the DOCX target hands the docx library one text paragraph per
    line of the header-wrapped text: no paragraph holds a line feed,
    there is one paragraph more than there are line feeds, and the
    paragraphs joined by line feeds are the text again, so no character
    is lost or added on the way into the document. *)
Theorem docx_paragraphs_are_the_lines (body : jsstring) :
  build L DOCX body = packer_toBlob L (map TextParagraph (split_char 10%N body))
  /\ join nl (split_char 10%N body) = body
  /\ Forall (Forall (fun c => c ≠ 10%N)) (split_char 10%N body)
  /\ length (split_char 10%N body) = S (length (filter (fun c => c = 10%N) body)).
Proof.
  split; [done|]. split; [apply join_split_char|].
  split; [apply split_char_pieces | apply split_char_length].
Qed.

(** X8: the ODT target escapes the text of a paragraph character by
    character: [&] becomes [&amp;], [<] becomes [&lt;], everything else
    (the [>] and the quotes too) is copied; the ampersands of the entities
    it writes are not escaped again, and no [<] of the text reaches the
    markup.  The document is a fixed prologue, one [text:p] element per
    line of the text, and a fixed epilogue. *)
Theorem odt_escapes_each_character_once (body : jsstring) :
  odt_of body
  = odt_prologue
    ++ join []
         (map (fun p => lit "<text:p>" ++ flat_map xml_escape p ++ lit "</text:p>")
              (split_char 10%N body))
    ++ odt_epilogue
  /\ Forall (fun p => Forall (fun c => c ≠ 60%N) (flat_map xml_escape p))
       (split_char 10%N body).
Proof.
  split.
  - assert (Hp : forall p : jsstring,
               replace_all (Re.char 60%N) (lit "&lt;")
                 (replace_all (Re.char 38%N) (lit "&amp;") p)
               = flat_map xml_escape p).
    { intros p. rewrite !replace_char, flat_map_flat_map.
      apply flat_map_ext. intros c. unfold xml_escape.
      split_on c 38%N. split_on c 60%N. other_char. }
    unfold odt_of, odt_prologue, odt_epilogue.
    rewrite (map_ext _ (fun p => lit "<text:p>" ++ flat_map xml_escape p ++ lit "</text:p>"))
      by (intros p; by rewrite Hp).
    by rewrite <- !app_assoc.
  - apply Forall_forall. intros p _. apply Forall_flat_map, Forall_forall.
    intros c _. unfold xml_escape.
    destruct (N.eqb_spec c 38); [by repeat constructor|].
    destruct (N.eqb_spec c 60); by repeat constructor.
Qed.

End Builders.

(** ** The PDF target: wrapping and pagination *)

Section PdfTarget.

Variable L : Libs.

Lemma visible_app (s t : jsstring) : visible (s ++ t) = visible s ++ visible t.
Proof. unfold visible. apply filter_app. Qed.

Lemma visible_spaces (s : jsstring) :
  Forall (fun c => is_space c = true) s -> visible s = [].
Proof.
  unfold visible. induction 1 as [|c s Hc _ IH]; [done|].
  rewrite filter_cons_False by (by rewrite Hc). done.
Qed.

Lemma visible_snoc (cur s : jsstring) (c : N) :
  visible (rev (c :: cur)) ++ visible (drop 0 s) = visible (rev cur) ++ visible (drop 0 (c :: s)).
Proof.
  cbn [rev drop]. change (c :: s) with ([c] ++ s).
  by rewrite !visible_app, <- app_assoc.
Qed.

(** Splitting on whitespace runs drops whitespace only. *)
Lemma split_spaces_visible (s : jsstring) :
  forall (skip : nat) (cur : jsstring),
  Forall (fun c => is_space c = true) (take skip s) ->
  visible (concat (split_from Re.spaces1 skip cur s))
  = visible (rev cur) ++ visible (drop skip s).
Proof.
  induction s as [|c s IH]; intros skip cur Hskip.
  - cbn [split_from concat]. rewrite drop_nil, app_nil_r.
    change (visible []) with (@nil N). by rewrite app_nil_r.
  - cbn [split_from]. destruct skip as [|k].
    + destruct (Re.spaces1 (c :: s)) as [[|n]|] eqn:E.
      * rewrite IH by constructor. apply visible_snoc.
      * unfold Re.spaces1 in E.
        destruct (1 <=? span_len is_space (c :: s)); [|done].
        injection E as E. cbn [span_len] in E.
        destruct (is_space c) eqn:Hc; [|done]. injection E as E.
        assert (Hn : Forall (fun c => is_space c = true) (take n s))
          by (rewrite <- E; apply span_len_take).
        cbn [concat]. rewrite visible_app, IH by done. cbn [rev drop app].
        f_equal. change (c :: s) with ([c] ++ s). rewrite visible_app.
        rewrite (visible_spaces [c]) by (by constructor). cbn [app].
        rewrite <- (take_drop n s) at 2. rewrite visible_app.
        by rewrite (visible_spaces (take n s)).
      * rewrite IH by constructor. apply visible_snoc.
    + cbn [take] in Hskip. apply Forall_cons in Hskip as [_ Hskip].
      by rewrite IH.
Qed.

Lemma wrap_word_visible (acc : list jsstring * jsstring) (w : jsstring) :
  wrapped (wrap_word L acc w) = wrapped acc ++ visible w.
Proof.
  destruct acc as [lines current]. unfold wrapped, wrap_word.
  destruct current as [|c current]; cbn [truthy].
  - destruct (negb _); cbn [fst snd]; rewrite app_nil_r; apply visible_app.
  - destruct (negb _); cbn [fst snd].
    + rewrite concat_app. cbn [concat]. by rewrite app_nil_r, !visible_app.
    + rewrite !visible_app.
      rewrite (visible_spaces (lit " ")) by (by repeat constructor).
      cbn [app]. by rewrite app_assoc.
Qed.

Lemma fold_wrap_visible (words : list jsstring) :
  forall acc, wrapped (fold_left (wrap_word L) words acc)
              = wrapped acc ++ visible (concat words).
Proof.
  induction words as [|w words IH]; intros acc.
  - cbn. by rewrite app_nil_r.
  - cbn [fold_left concat]. by rewrite IH, wrap_word_visible, visible_app, <- app_assoc.
Qed.

Lemma wrap_word_inv (words : list jsstring) acc (w : jsstring) :
  In w words -> wrap_inv L words acc -> wrap_inv L words (wrap_word L acc w).
Proof.
  intros Hw [Hlines Hcur]. destruct acc as [lines current]. cbn [fst snd] in *.
  unfold wrap_word, wrap_inv.
  destruct (negb (Qle_bool _ 512)) eqn:E; cbn [fst snd].
  - split; [|right; by right].
    destruct current as [|c current]; cbn [truthy]; [done|].
    apply Forall_app. split; [done|]. constructor; [|constructor].
    split; [done|]. by destruct Hcur.
  - split; [done|]. right. left. by apply negb_false_iff in E.
Qed.

Lemma fold_wrap_inv (words ws : list jsstring) :
  forall acc, (forall w, In w ws -> In w words) -> wrap_inv L words acc ->
              wrap_inv L words (fold_left (wrap_word L) ws acc).
Proof.
  induction ws as [|w ws IH]; intros acc Hsub Hinv; [done|].
  cbn [fold_left]. apply IH.
  - intros w' Hw'. apply Hsub. by right.
  - apply wrap_word_inv; [apply Hsub; by left | done].
Qed.

(** X10: the word wrap of the PDF target loses no visible character
    and adds none: the non-whitespace characters of the lines, read in
    order, are those of the text.  No line is empty, and a line is wider
    than the text area (512 points) only when it is one single word of
    the text. *)
Theorem wrap_keeps_the_text (body : jsstring) :
  visible (concat (wrap L body)) = visible body
  /\ Forall (fun line =>
               line ≠ []
               /\ (Qle_bool (widthOfTextAtSize L line) 512 = true
                   \/ In line (split_re Re.spaces1 body)))
       (wrap L body).
Proof.
  unfold wrap.
  pose proof (fold_wrap_visible (split_re Re.spaces1 body) ([], [])) as Hv.
  assert (Hinit : wrap_inv L (split_re Re.spaces1 body) ([], []))
    by (split; [constructor | by left]).
  pose proof (fold_wrap_inv (split_re Re.spaces1 body) (split_re Re.spaces1 body)
                ([], []) (fun _ H => H) Hinit) as [Hlines Hcur].
  clear Hinit.
  destruct (fold_left _ _ _) as [lines current].
  unfold wrapped in Hv. cbn [fst snd app concat] in *.
  assert (Hs : visible (concat (split_re Re.spaces1 body)) = visible body).
  { unfold split_re. by rewrite split_spaces_visible by constructor. }
  change (visible []) with (@nil N) in Hv. cbn [app] in Hv. rewrite Hs in Hv.
  destruct current as [|c current]; cbn [truthy].
  - split; [by rewrite app_nil_r in Hv | done].
  - split.
    + by rewrite concat_app; cbn [concat]; rewrite app_nil_r.
    + apply Forall_app. split; [done|]. constructor; [|constructor].
      split; [done|]. by destruct Hcur.
Qed.

Lemma draw_lines_spec (lines : list jsstring) :
  forall (y : Q) (page : list (jsstring * Q)) (pages : list (list (jsstring * Q))),
  (y <= 742)%Q ->
  Forall drawn_ok (concat pages ++ page) ->
  map fst (concat (draw_lines lines y page pages))
  = map fst (concat pages ++ page) ++ lines
  /\ Forall drawn_ok (concat (draw_lines lines y page pages)).
Proof.
  induction lines as [|ln rest IH]; intros y page pages Hy Hok.
  - cbn [draw_lines]. rewrite concat_app. cbn [concat].
    by rewrite !app_nil_r.
  - cbn [draw_lines]. destruct (Qle_bool 62 y) eqn:E; cbn [negb].
    + apply Qle_bool_iff in E.
      destruct (IH (y - (84 # 5))%Q (page ++ [(ln, y)]) pages) as [H1 H2].
      * lra.
      * rewrite app_assoc. apply Forall_app. split; [done|].
        constructor; [|constructor]. split; cbn [snd]; lra.
      * split; [|done]. rewrite H1, app_assoc, !map_app. cbn [map fst].
        by rewrite <- !app_assoc.
    + destruct (IH (742 - (84 # 5))%Q [(ln, 742%Q)] (pages ++ [page])) as [H1 H2].
      * lra.
      * rewrite concat_app. cbn [concat]. rewrite app_nil_r.
        apply Forall_app. split; [done|].
        constructor; [|constructor]. split; cbn [snd]; lra.
      * split; [|done]. rewrite H1, concat_app. cbn [concat].
        rewrite app_nil_r, !map_app. cbn [map fst]. by rewrite <- !app_assoc.
Qed.

Lemma draw_lines_no_empty_page (lines : list jsstring) :
  forall (y : Q) (page : list (jsstring * Q)) (pages : list (list (jsstring * Q))),
  page ≠ [] -> Forall (fun p => p ≠ []) pages ->
  Forall (fun p => p ≠ []) (draw_lines lines y page pages).
Proof.
  induction lines as [|ln rest IH]; intros y page pages Hp Hps.
  - cbn [draw_lines]. apply Forall_app. by split; [|constructor].
  - cbn [draw_lines]. destruct (negb (Qle_bool 62 y)).
    + apply IH; [done|]. apply Forall_app. by split; [|constructor].
    + apply IH; [|done]. by destruct page.
Qed.

(** X11: pagination draws every line of the wrapped text exactly once
    and in order; every line is drawn with [y] between 62 and 742, that
    is never below [margin + fontSize] and never above the top margin;
    and no page is left without a line unless there is no line at all,
    in which case the document is one empty page. *)
Theorem pagination_keeps_the_lines (lines : list jsstring) :
  map fst (concat (draw_lines lines 742 [] [])) = lines
  /\ Forall drawn_ok (concat (draw_lines lines 742 [] []))
  /\ (lines ≠ [] -> Forall (fun p => p ≠ []) (draw_lines lines 742 [] []))
  /\ (lines = [] -> draw_lines lines 742 [] [] = [[]]).
Proof.
  destruct (draw_lines_spec lines 742 [] []) as [H1 H2]; [lra | constructor |].
  split; [done|]. split; [done|]. split; [|by intros ->].
  intros Hne. destruct lines as [|ln rest]; [done|].
  cbn [draw_lines]. change (Qle_bool 62 742) with true. cbn [negb app].
  by apply draw_lines_no_empty_page.
Qed.

End PdfTarget.

(** ** More on the selectors and the server option *)

Section MoreSelectors.

Variable L : Libs.

Import UI.

Lemma effect_keeps_server (p : Page) :
  useServer (st (effect p)) = useServer (st p)
  /\ health (st (effect p)) = health (st p).
Proof.
  unfold effect. by destruct (bool_decide _).
Qed.

Lemma handle_keeps_server_off_when_unhealthy (m : Msg) (p : Page) :
  (forall h, health (st p) = Some h -> ok h = false -> useServer (st p) = false) ->
  forall h, health (st (handle L m p)) = Some h -> ok h = false ->
            useServer (st (handle L m p)) = false.
Proof.
  intros Hinv h. destruct m as [f|f|names|b|b| |[data|]]; cbn [handle].
  - apply Hinv.
  - apply Hinv.
  - destruct names as [|name rest]; [apply Hinv|].
    destruct (detect L name); [|apply Hinv]. apply Hinv.
  - apply Hinv.
  - destruct (bool_decide (ok <$> health (st p) = Some false)) eqn:E; cbn [orb].
    + apply Hinv.
    + destruct (healthLoading p); [apply Hinv|]. cbn [st health useServer].
      intros Hh Hok. apply bool_decide_eq_false in E. exfalso. apply E.
      by rewrite Hh; cbn; rewrite Hok.
  - apply Hinv.
  - cbn [st health useServer]. intros [= <-] Hok. rewrite Hok. cbn [negb andb].
    by destruct (useServer (st p)).
  - done.
Qed.

(** X12: in every page state reached by events from the initial one
    (each health check settling on the state that is current then), the
    server option is off whenever the recorded health is not ok: a failed
    check switches it off, and the checkbox cannot be ticked while the
    record says not ok or a check is running.  The "unavailable" gate of
    [convertDocument] therefore never fires from such a state. *)
Theorem server_option_off_when_unhealthy (p : Page) :
  reachable L p ->
  (forall h, health (st p) = Some h -> ok h = false -> useServer (st p) = false)
  /\ useServer (st p) && health_not_ok (st p) = false.
Proof.
  intros Hreach.
  assert (Hinv : forall h, health (st p) = Some h -> ok h = false ->
                           useServer (st p) = false).
  { induction Hreach as [|m q _ IH].
    - done.
    - intros h. unfold step.
      destruct (effect_keeps_server (handle L m q)) as [-> ->].
      by apply handle_keeps_server_off_when_unhealthy. }
  split; [done|]. unfold health_not_ok.
  destruct (health (st p)) as [h|]; [|apply andb_false_r].
  destruct (ok h) eqn:Hok; [apply andb_false_r|].
  by rewrite (Hinv h eq_refl Hok).
Qed.

(** X13: choosing a source format by hand and dropping a file whose
    extension is recognised end in the same formats: the source is the
    chosen (detected) one, and the target is kept unless it collides with
    it, in which case it becomes PDF, or DOCX when the source is PDF.  A
    file list that is empty or starts with an unrecognised extension
    changes nothing; only the first file counts. *)
Theorem source_choice_and_file_drop_agree (p : Page) (f : ConversionFormat)
  (name : jsstring) (others : list jsstring) :
  (sourceFormat (st (step L (SelectSource f) p)) = f
   /\ targetFormat (st (step L (SelectSource f) p)) = fallback (targetFormat (st p)) f)
  /\ (detect L name = Some f ->
      sourceFormat (st (step L (FilesSelected (name :: others)) p)) = f
      /\ targetFormat (st (step L (FilesSelected (name :: others)) p))
         = fallback (targetFormat (st p)) f
      /\ step L (FilesSelected (name :: others)) p
         = handle L (FilesSelected (name :: others)) p)
  /\ (detect L name = None -> handle L (FilesSelected (name :: others)) p = p)
  /\ handle L (FilesSelected []) p = p.
Proof.
  destruct p as [[src tgt lay srv h] hl].
  split; [|split; [|split]].
  - unfold step, effect, fallback; cbn [handle st sourceFormat targetFormat with_formats].
    destruct f, tgt; by vm_compute.
  - intros Hd. unfold step, effect, fallback.
    cbn [handle st sourceFormat targetFormat with_formats]. rewrite Hd.
    cbn [st sourceFormat targetFormat with_formats].
    destruct f, tgt; by vm_compute.
  - intros Hd. cbn [handle]. by rewrite Hd.
  - done.
Qed.

End MoreSelectors.

(** ** More on the endpoint *)

Section MoreEndpoint.

Import Route.

Variable host : Host.

Lemma dedup_spec (xs : list jsstring) :
  forall seen : list jsstring,
  NoDup (dedup seen xs)
  /\ forall x, x ∈ dedup seen xs <-> x ∈ xs /\ x ∉ seen.
Proof.
  induction xs as [|a xs IH]; intros seen.
  - split; [constructor|]. intros x. cbn [dedup]. rewrite elem_of_nil. tauto.
  - cbn [dedup]. destruct (bool_decide (a ∈ seen)) eqn:E.
    + apply bool_decide_eq_true in E. destruct (IH seen) as [Hnd Hin].
      split; [done|]. intros x. rewrite Hin, elem_of_cons. split.
      * intros [Hx Hs]. by split; [right|].
      * intros [[->|Hx] Hs]; [contradiction | done].
    + apply bool_decide_eq_false in E. destruct (IH (a :: seen)) as [Hnd Hin].
      split.
      * apply NoDup_cons. split; [|done]. rewrite Hin.
        intros [_ Hn]. apply Hn. by left.
      * intros x. rewrite !elem_of_cons, Hin, not_elem_of_cons. split.
        -- intros [->|[Hx [Hne Hs]]]; [by split; [left|] | by split; [right|]].
        -- intros [[->|Hx] Hs]; [by left|].
           destruct (decide (x = a)) as [->|Hne]; [by left | by right].
Qed.

Lemma dedup_head (a : jsstring) (xs : list jsstring) :
  dedup [] (a :: xs) = a :: dedup [a] xs.
Proof.
  cbn [dedup]. rewrite bool_decide_eq_false_2; [done | apply not_elem_of_nil].
Qed.

(** X14: the binary paths handed to the office-suite integration are
    pairwise distinct, none is the empty string, and there is always at
    least one; a path configured in the environment (the first set and
    non-empty of [LIBREOFFICE_BIN], [LIBRE_OFFICE_EXE], [LIBRE_OFFICE_BIN])
    comes first, ahead of the platform's conventional locations. *)
Theorem binary_paths_distinct_env_first :
  NoDup (resolveSofficeBinaryPaths host)
  /\ Forall (fun p => p ≠ []) (resolveSofficeBinaryPaths host)
  /\ resolveSofficeBinaryPaths host ≠ []
  /\ forall (c : N) (e : jsstring),
       or_else (env_LIBREOFFICE_BIN host)
         (or_else (env_LIBRE_OFFICE_EXE host) (env_LIBRE_OFFICE_BIN host)) = Some (c :: e) ->
       head (resolveSofficeBinaryPaths host) = Some (c :: e).
Proof.
  unfold resolveSofficeBinaryPaths.
  set (envBin := or_else _ _).
  set (envPaths := match envBin with Some (c :: s) => [c :: s] | _ => [] end).
  set (cands := if eqb _ _ then _ else _).
  destruct (dedup_spec (filter (fun p => truthy p = true) cands) []) as [Hnd Hin].
  assert (Htruthy : forall p : jsstring, truthy p = true <-> p ≠ []) by (by intros []).
  assert (Hcands : exists a rest, cands = envPaths ++ a :: rest /\ a ≠ []).
  { subst cands. destruct (eqb (platform host) (lit "win32")); [by eexists _, _|].
    destruct (eqb (platform host) (lit "darwin")); by eexists _, _. }
  destruct Hcands as (a & rest & Hc & Ha).
  split; [done|]. split; [|split].
  - apply Forall_forall. intros x Hx. apply Hin in Hx as [Hx _].
    apply list_elem_of_filter in Hx as [Hx _]. by apply Htruthy.
  - intros Hnil. assert (Hx : a ∈ dedup [] (filter (fun p => truthy p = true) cands)).
    { apply Hin. split; [|apply not_elem_of_nil]. apply list_elem_of_filter.
      split; [by apply Htruthy|]. rewrite Hc, elem_of_app. right. by left. }
    rewrite Hnil in Hx. by apply not_elem_of_nil in Hx.
  - intros c e He. rewrite Hc. subst envPaths. rewrite He. cbn [app].
    rewrite filter_cons_True by done. by rewrite dedup_head.
Qed.

(** X17: the name given to the conversion is built from the uploaded
    name with every run of characters outside [A-Za-z0-9_.-] replaced by
    one underscore: what is left holds safe characters only, and a name
    that was safe already is not touched. *)
Theorem upload_name_is_made_safe (name : jsstring) :
  Forall (fun c => safe_char c = true) (replace_all unsafe_run (lit "_") name)
  /\ (Forall (fun c => safe_char c = true) name ->
      replace_all unsafe_run (lit "_") name = name).
Proof.
  split.
  - apply replace_from_unmatched; [by repeat constructor|].
    intros c s Hm. unfold unsafe_run in Hm. cbn [span_len] in Hm.
    unfold safe_char. destruct (is_alnum c || _ || _ || _); [done|].
    cbn [negb Nat.leb] in Hm. exfalso. by eapply Hm.
  - unfold replace_all. induction 1 as [|c s Hc _ IH]; [done|].
    cbn [replace_from]. unfold unsafe_run at 1. cbn [span_len].
    unfold safe_char in Hc. rewrite Hc. cbn [negb Nat.leb]. by rewrite IH.
Qed.

End MoreEndpoint.

(** ** The answers of the endpoint and of the probe *)

Section Answers.

Import Route.

Variable host : Host.

(** Everything [POST] can answer, with the calls it made to get there. *)
Lemma POST_cases (req : Request) :
  (exists e, POST host req = (json 400 e None, []))
  \/ (exists e, POST host req = (json 500 e None, []))
  \/ (exists e, POST host req = (json 500 e None, [Import]))
  \/ (exists msg, POST host req = (conversion_failed host msg, [Import]))
  \/ (exists msg c, POST host req = (conversion_failed host msg, [Import; c])
                    /\ c ≠ Import /\ lc_run host c = Throw msg)
  \/ (exists data ext cd c,
        POST host req = ({| status := 200; body := Binary data (mime ext) cd |}, [Import; c])
        /\ c ≠ Import /\ lc_run host c = Ok data).
Proof.
  destruct req as [msg|form]; cbn [POST]; [right; left; by eexists|].
  destruct (form_file form) as [[v|file]|]; [left; by eexists| |left; by eexists].
  destruct (toLowerCase host <$> form_targetExt form) as [[|c t]|];
    [left; by eexists| |left; by eexists].
  destruct (_ && _); [left; by eexists|].
  unfold run_conversion.
  destruct (lc_import host) as [lcModule|msg]; [|do 3 right; left; by eexists].
  destruct (getLibreOfficeFns lcModule) as [[|] [|]]; cbn [negb andb];
    try (right; right; left; by eexists);
    match goal with
    | |- context [lc_run host ?call] =>
        destruct (lc_run host call) as [data|msg] eqn:E;
        [ do 5 right; eexists _, _, _, _; split; [reflexivity|]; by split
        | do 4 right; left; eexists _, _; split; [reflexivity|]; by split ]
    end.
Qed.

Lemma conversion_failed_shape (msg : jsstring) :
  exists hints : list jsstring,
    conversion_failed host msg
    = json 502 (lit "LibreOffice conversion failed: " ++ msg) (Some hints)
    /\ last hints = Some (lit "Paths tried: " ++ join (lit ", ") (resolveSofficeBinaryPaths host))
    /\ length hints = (if contains_ci (lit "ENOENT") msg then 3 else 1)%nat.
Proof.
  unfold conversion_failed. destruct (contains_ci _ msg); by eexists.
Qed.

(** X15: whatever is posted, the endpoint answers with status 200,
    400, 500 or 502; the body is binary exactly when the status is 200 and
    a JSON error otherwise.  A 400 is decided before anything is loaded or
    run; in all, the office-suite module is imported at most once and
    asked for at most one conversion, and a 200 carries the result of that
    one conversion. *)
Theorem post_answers_and_calls (req : Request) :
  (status (fst (POST host req)) = 200%N \/ status (fst (POST host req)) = 400%N
   \/ status (fst (POST host req)) = 500%N \/ status (fst (POST host req)) = 502%N)
  /\ ((exists data ct cd, body (fst (POST host req)) = Binary data ct cd)
      <-> status (fst (POST host req)) = 200%N)
  /\ (status (fst (POST host req)) = 400%N -> snd (POST host req) = [])
  /\ (snd (POST host req) = [] \/ snd (POST host req) = [Import]
      \/ exists c, snd (POST host req) = [Import; c] /\ c ≠ Import)
  /\ (status (fst (POST host req)) = 200%N ->
      exists c data ct cd,
        snd (POST host req) = [Import; c] /\ lc_run host c = Ok data
        /\ body (fst (POST host req)) = Binary data ct cd).
Proof.
  destruct (POST_cases req)
    as [[e ->]|[[e ->]|[[e ->]|[[msg ->]|[(msg & c & -> & Hc & Hrun)
                                          |(data & ext & cd & c & -> & Hc & Hrun)]]]]];
    try destruct (conversion_failed_shape msg) as (hints & -> & _ & _);
    cbn [fst snd status body json].
  - split; [tauto|]. split; [split; [by intros (? & ? & ? & ?) | done]|].
    split; [done|]. split; [by left | done].
  - split; [tauto|]. split; [split; [by intros (? & ? & ? & ?) | done]|].
    split; [done|]. split; [by left | done].
  - split; [tauto|]. split; [split; [by intros (? & ? & ? & ?) | done]|].
    split; [done|]. split; [right; by left | done].
  - split; [tauto|]. split; [split; [by intros (? & ? & ? & ?) | done]|].
    split; [done|]. split; [right; by left | done].
  - split; [tauto|]. split; [split; [by intros (? & ? & ? & ?) | done]|].
    split; [done|]. split; [right; right; by exists c | done].
  - split; [tauto|]. split; [split; [done | by eexists _, _, _]|].
    split; [done|]. split; [right; right; by exists c|].
    intros _. by exists c, data, (mime ext), cd.
Qed.

(** X16: a 502 always says what went wrong and where the binary was
    looked for: its error is [LibreOffice conversion failed: ] followed by
    the message of the failure, and its last hint lists the binary paths
    that were tried; the two installation hints come before it exactly
    when the message mentions ENOENT, in any letter case. *)
Theorem bad_gateway_lists_paths (req : Request) :
  status (fst (POST host req)) = 502%N ->
  exists (msg : jsstring) (hints : list jsstring),
    body (fst (POST host req))
    = JsonError (lit "LibreOffice conversion failed: " ++ msg) (Some hints)
    /\ last hints
       = Some (lit "Paths tried: " ++ join (lit ", ") (resolveSofficeBinaryPaths host))
    /\ length hints = (if contains_ci (lit "ENOENT") msg then 3 else 1)%nat.
Proof.
  destruct (POST_cases req)
    as [[e ->]|[[e ->]|[[e ->]|[[msg ->]|[(msg & c & -> & Hc & Hrun)
                                          |(data & ext & cd & c & -> & Hc & Hrun)]]]]];
    cbn [fst status json]; try done;
    destruct (conversion_failed_shape msg) as (hints & -> & Hlast & Hlen);
    intros _; by exists msg, hints.
Qed.

(** Everything the probe can answer. *)
Lemma GET_cases :
  (exists msg, lc_import host = Throw msg
     /\ Probe.GET host = (Probe.answer host false (lit "Health check error: " ++ msg), [Import]))
  \/ (exists lc, lc_import host = Ok lc /\ getLibreOfficeFns lc = (false, false)
        /\ Probe.GET host = (Probe.answer host false Probe.not_loaded_msg, [Import]))
  \/ (exists lc c msg, lc_import host = Ok lc /\ getLibreOfficeFns lc ≠ (false, false)
        /\ c ≠ Import /\ lc_run host c = Throw msg
        /\ Probe.GET host
           = (Probe.answer host false (lit "LibreOffice convert failed: " ++ msg),
              [Import; c]))
  \/ (exists lc c data, lc_import host = Ok lc /\ getLibreOfficeFns lc ≠ (false, false)
        /\ c ≠ Import /\ lc_run host c = Ok data
        /\ Probe.GET host = (Probe.answer host true Probe.available_msg, [Import; c])).
Proof.
  unfold Probe.GET, Probe.probe_call.
  destruct (lc_import host) as [lc|msg]; [|left; by eexists].
  right. destruct (getLibreOfficeFns lc) as [[|] [|]] eqn:Hf; cbn [orb];
    try (left; by eexists);
    right;
    match goal with
    | |- context [lc_run host ?call] =>
        destruct (lc_run host call) as [data|msg] eqn:E;
        [ right; exists lc, call, data | left; exists lc, call, msg ];
        rewrite Hf; by repeat split
    end.
Qed.

Lemma not_detected_is_never_sent (msg : jsstring) :
  lit "Health check error: " ++ msg ≠ Probe.not_detected_msg
  /\ lit "LibreOffice convert failed: " ++ msg ≠ Probe.not_detected_msg
  /\ Probe.not_loaded_msg ≠ Probe.not_detected_msg
  /\ Probe.available_msg ≠ Probe.not_detected_msg.
Proof.
  split; [|split; [|split]]; intros E; apply (f_equal (take 13)) in E;
    vm_compute in E; discriminate E.
Qed.

(** X18: the probe never fails and always answers 200 or 503: 200
    exactly when its [ok] flag is set, which is exactly when the
    integration could be imported, offers a conversion function, and the
    one trial conversion succeeded.  [ok] and [server.available] are always
    equal, at most one conversion is tried, and the message is never the
    "LibreOffice not detected" text the handler starts with: every path
    overwrites it. *)
Theorem probe_reports_the_trial :
  (Probe.probe_status (fst (Probe.GET host)) = 200%N
   \/ Probe.probe_status (fst (Probe.GET host)) = 503%N)
  /\ (Probe.probe_status (fst (Probe.GET host)) = 200%N
      <-> ok (Probe.probe_body (fst (Probe.GET host))) = true)
  /\ ok (Probe.probe_body (fst (Probe.GET host)))
     = available (server (Probe.probe_body (fst (Probe.GET host))))
  /\ (ok (Probe.probe_body (fst (Probe.GET host))) = true
      <-> exists lc c data,
            lc_import host = Ok lc /\ getLibreOfficeFns lc ≠ (false, false)
            /\ lc_run host c = Ok data
            /\ snd (Probe.GET host) = [Import; c])
  /\ (snd (Probe.GET host) = [Import]
      \/ exists c, snd (Probe.GET host) = [Import; c] /\ c ≠ Import)
  /\ (exists msg, message (server (Probe.probe_body (fst (Probe.GET host)))) = Some msg
                  /\ msg ≠ Probe.not_detected_msg).
Proof.
  destruct GET_cases
    as [(msg & Hi & ->)|[(lc & Hi & Hf & ->)|[(lc & c & msg & Hi & Hf & Hc & Hrun & ->)
                                            |(lc & c & data & Hi & Hf & Hc & Hrun & ->)]]];
    cbn [fst snd Probe.answer Probe.probe_status Probe.probe_body health_report
           ok server available message].
  - split; [by right|]. split; [done|]. split; [done|]. split.
    + split; [done|]. by intros (? & ? & ? & _ & _ & _ & ?).
    + split; [by left|]. eexists. split; [done|]. apply not_detected_is_never_sent.
  - split; [by right|]. split; [done|]. split; [done|]. split.
    + split; [done|]. by intros (? & ? & ? & _ & _ & _ & ?).
    + split; [by left|]. eexists. split; [done|].
      apply (not_detected_is_never_sent []).
  - split; [by right|]. split; [done|]. split; [done|]. split.
    + split; [done|]. intros (? & c' & ? & _ & _ & Hrun' & [= <-]). congruence.
    + split; [right; by exists c|]. eexists. split; [done|].
      apply not_detected_is_never_sent.
  - split; [by left|]. split; [done|]. split; [done|]. split.
    + split; [|done]. intros _. by exists lc, c, data.
    + split; [right; by exists c|]. eexists. split; [done|].
      apply (not_detected_is_never_sent []).
Qed.


(** X22: the Content-Type the endpoint sends for a target extension
    is the MIME type the page gives the same format, for every format but
    TXT: for [.txt] the endpoint has no entry and sends
    [application/octet-stream], where the page says [text/plain]. *)
Theorem endpoint_mime_matches_page_except_txt (f : ConversionFormat) :
  (mime (extMap f) = getMimeType f <-> f ≠ TXT)
  /\ mime (extMap TXT) = lit "application/octet-stream".
Proof.
  split; [|by vm_compute]. destruct f; split; try done; by vm_compute.
Qed.

End Answers.

(** ** From the page to the endpoint and back *)

Section EndToEnd.

Import Route.

Variable json_bytes : jsstring -> option (list jsstring) -> bytes.
Variable L : Libs.
Variable host : Host.
Variable W : World.

Lemma server_convert_outcome (W' : World) (file : File) (src tgt : ConversionFormat)
  (resp : Response) :
  fetch_convert W' {| fd_file := file; fd_targetExt := extMap tgt; fd_sourceExt := extMap src |}
  = Ok resp ->
  outcome (server_convert W' file src tgt)
  = if resp_ok resp
    then Ok {| blob_data := BBytes (resp_arrayBuffer resp); blob_type := getMimeType tgt |}
    else Throw
           (match resp_json resp ≫= body_error with
            | Some e => e
            | None => lit "Server conversion failed (" ++ of_N (resp_status resp) ++ lit ")"
            end
            ++ match resp_json resp ≫= body_hints with
               | Some (h :: hs) => nl ++ join nl (h :: hs)
               | _ => []
               end).
Proof.
  intros Hf. unfold server_convert, bind, emit, lift, outcome. cbn [fst snd].
  rewrite Hf. by destruct (resp_ok resp).
Qed.

Lemma served_outcome (file : File) (src tgt : ConversionFormat) :
  outcome (server_convert (Wire.served_by json_bytes host W) file src tgt)
  = let resp :=
      Wire.response_of json_bytes
        (fst (POST host (Wire.request_of
                           {| fd_file := file; fd_targetExt := extMap tgt;
                              fd_sourceExt := extMap src |}))) in
    if resp_ok resp
    then Ok {| blob_data := BBytes (resp_arrayBuffer resp); blob_type := getMimeType tgt |}
    else Throw
           (match resp_json resp ≫= body_error with
            | Some e => e
            | None => lit "Server conversion failed (" ++ of_N (resp_status resp) ++ lit ")"
            end
            ++ match resp_json resp ≫= body_hints with
               | Some (h :: hs) => nl ++ join nl (h :: hs)
               | _ => []
               end).
Proof. by apply server_convert_outcome. Qed.

Lemma served_json (code : N) (e : jsstring) (hints : option (list jsstring))
  (file : File) (src tgt : ConversionFormat) :
  code = 400%N \/ code = 500%N \/ code = 502%N ->
  fst (POST host (Wire.request_of
                    {| fd_file := file; fd_targetExt := extMap tgt; fd_sourceExt := extMap src |}))
  = json code e hints ->
  outcome (server_convert (Wire.served_by json_bytes host W) file src tgt)
  = Throw (shown e hints).
Proof.
  intros Hcode Hpost.
  rewrite served_outcome. cbv zeta. rewrite Hpost.
  unfold Wire.response_of, json. cbn [status body resp_ok resp_json].
  by destruct Hcode as [->|[->| ->]].
Qed.

(** X21: in server mode, past the two gates of the page, with the
    network answered by the endpoint: when the endpoint sends a binary
    body the page returns exactly those bytes, typed with the MIME type of
    the target format; when it sends a JSON error the page throws that
    error followed by the endpoint's hints, one per line, nothing added
    and nothing dropped. *)
Theorem page_shows_what_the_endpoint_says (s : State) (file : File)
  (src tgt : ConversionFormat) :
  useServer s = true ->
  health_not_ok s = false ->
  ~ (src = PDF /\ (tgt = DOCX \/ tgt = ODT)) ->
  outcome (convertDocument L (Wire.served_by json_bytes host W) s file src tgt)
  = match body (fst (POST host (Wire.request_of
                                  {| fd_file := file; fd_targetExt := extMap tgt;
                                     fd_sourceExt := extMap src |}))) with
    | Binary data _ _ =>
        Ok {| blob_data := BBytes data; blob_type := getMimeType tgt |}
    | JsonError e hints => Throw (shown e hints)
    end.
Proof.
  intros Hs Hh Hpair. rewrite convertDocument_server by done.
  destruct (POST_cases host
              (Wire.request_of {| fd_file := file; fd_targetExt := extMap tgt;
                                  fd_sourceExt := extMap src |}))
    as [[e E]|[[e E]|[[e E]|[[msg E]|[(msg & c & E & _ & _)
                                      |(data & ext & cd & c & E & _ & _)]]]]].
  - rewrite (served_json 400 e None file src tgt) by (by rewrite ?E; auto). by rewrite E.
  - rewrite (served_json 500 e None file src tgt) by (by rewrite ?E; auto). by rewrite E.
  - rewrite (served_json 500 e None file src tgt) by (by rewrite ?E; auto). by rewrite E.
  - destruct (conversion_failed_shape host msg) as (hints & Hcf & _ & _).
    rewrite Hcf in E.
    rewrite (served_json 502 _ (Some hints) file src tgt) by (by rewrite ?E; auto).
    by rewrite E.
  - destruct (conversion_failed_shape host msg) as (hints & Hcf & _ & _).
    rewrite Hcf in E.
    rewrite (served_json 502 _ (Some hints) file src tgt) by (by rewrite ?E; auto).
    by rewrite E.
  - rewrite served_outcome. cbv zeta. by rewrite E.
Qed.

Lemma POST_rejects_by_name (file : File) (src tgt : ConversionFormat) :
  tgt = DOCX \/ tgt = ODT ->
  ends_with_pdf (file_name file) = true ->
  toLowerCase host (extMap tgt) = extMap tgt ->
  POST host (Wire.request_of
               {| fd_file := file; fd_targetExt := extMap tgt; fd_sourceExt := extMap src |})
  = (json 400 rejected_msg None, []).
Proof.
  intros Ht Hname Hlow. unfold Wire.request_of. cbn [POST form_file form_targetExt
    form_sourceExt fd_file fd_targetExt fd_sourceExt fmap option_fmap option_map].
  rewrite Hlow, Hname, orb_true_r.
  by destruct Ht as [-> | ->].
Qed.

(** X20: the endpoint's own check is what stops a PDF that was
    declared as something else.  In server mode, with a source format
    other than PDF, a target of DOCX or ODT and a file whose name ends in
    [.pdf], the page's gates let the request through, the endpoint
    rejects it with its 400, and the conversion fails with the endpoint's
    message, the office suite never being called. *)
Theorem misdeclared_pdf_is_stopped_by_the_endpoint (s : State) (file : File)
  (src tgt : ConversionFormat) :
  useServer s = true ->
  health_not_ok s = false ->
  src ≠ PDF ->
  tgt = DOCX \/ tgt = ODT ->
  ends_with_pdf (file_name file) = true ->
  toLowerCase host (extMap tgt) = extMap tgt ->
  convertDocument L (Wire.served_by json_bytes host W) s file src tgt
  = (Throw rejected_msg,
     [EvFetch (lit "/api/convert")
        {| fd_file := file; fd_targetExt := extMap tgt; fd_sourceExt := extMap src |}])
  /\ snd (POST host (Wire.request_of
                       {| fd_file := file; fd_targetExt := extMap tgt;
                          fd_sourceExt := extMap src |})) = [].
Proof.
  intros Hs Hh Hsrc Ht Hname Hlow.
  pose proof (POST_rejects_by_name file src tgt Ht Hname Hlow) as E.
  split; [|by rewrite E].
  rewrite convertDocument_server by (try done; by intros [? _]).
  apply injective_projections.
  - change (outcome (server_convert (Wire.served_by json_bytes host W) file src tgt)
            = Throw rejected_msg).
    rewrite (served_json 400 rejected_msg None file src tgt) by (by rewrite ?E; auto).
    unfold shown. by rewrite app_nil_r.
  - apply server_convert_trace.
Qed.

End EndToEnd.

(** ** After the conversion *)

Section Download.

Variable L : Libs.
Variable W : World.

Lemma split_char_head (c : N) (s : jsstring) :
  exists rest : jsstring,
    s = hd [] (split_char c s) ++ rest
    /\ Forall (fun x => x ≠ c) (hd [] (split_char c s))
    /\ (rest = [] \/ exists r, rest = c :: r).
Proof.
  induction s as [|x s IH]; [by exists []; repeat split; [constructor | left]|].
  cbn [split_char]. destruct (N.eqb_spec x c) as [->|Hx].
  - exists (c :: s). cbn [hd app]. repeat split; [constructor | right; by eexists].
  - destruct (split_char_cons c s) as (p & ps & E). rewrite E in *. cbn [hd] in *.
    destruct IH as (rest & Hs & Hp & Hrest). exists rest.
    split; [by rewrite Hs at 1|]. split; [by constructor | done].
Qed.

Lemma filter_none (P : N -> Prop) `{forall x, Decision (P x)} (s : jsstring) :
  Forall (fun x => ~ P x) s -> filter P s = [].
Proof.
  induction 1 as [|x s Hx _ IH]; [done|]. by rewrite filter_cons_False.
Qed.

(** X23: after a conversion that succeeded the form shows [success],
    no error, the converted blob behind the download link, and a download
    name made of [converted-], the part of the uploaded name before its
    first dot, a dot, and the extension of the target format: the name
    holds exactly one dot, whatever dots the uploaded name had, and never
    the source's extension. *)
Theorem download_name_after_success (s : State) (file : File) (v : Run.View)
  (blob : Blob) (log : list Event) :
  convertDocument L W s file (sourceFormat s) (targetFormat s) = (Ok blob, log) ->
  exists base rest : jsstring,
    file_name file = base ++ rest
    /\ Forall (fun c => c ≠ 46%N) base
    /\ (rest = [] \/ exists r, rest = 46%N :: r)
    /\ Run.handleConvert L W s (Some file) v
       = ({| Run.status := Run.success; Run.errorMsg := None;
             Run.downloadUrl := Some blob;
             Run.fileName := lit "converted-" ++ base ++ lit "."
                             ++ getExtension (targetFormat s) |}, log)
    /\ length (filter (fun c => c = 46%N)
                 (lit "converted-" ++ base ++ lit "." ++ getExtension (targetFormat s)))
       = 1.
Proof.
  intros Hc.
  destruct (split_char_head 46%N (file_name file)) as (rest & Hname & Hbase & Hrest).
  exists (hd [] (split_char 46%N (file_name file))), rest.
  split; [done|]. split; [done|]. split; [done|]. split.
  - unfold Run.handleConvert. by rewrite Hc.
  - rewrite !filter_app, (filter_none _ (hd [] _)) by done.
    by destruct (targetFormat s).
Qed.

End Download.

(** ** Plain RTF, the layout-preserving path, the probe seen from the page *)

Section Further.

Variable L : Libs.
Variable W : World.

Lemma replace_from_id (P : N -> Prop) (m : matcher) (rep : jsstring) :
  (forall c t, P c -> m (c :: t) = None) ->
  forall s : jsstring, Forall P s -> replace_from m rep 0 s = s.
Proof.
  intros Hm. induction 1 as [|c s Hc _ IH]; [done|].
  cbn [replace_from]. by rewrite (Hm c s Hc), IH.
Qed.

Lemma strip_backslash (p t : jsstring) (c : N) :
  c ≠ 92%N -> strip_prefix (92%N :: p) (c :: t) = None.
Proof.
  intros Hc. cbn [strip_prefix].
  by destruct (N.eqb_spec 92 c) as [E|_]; [symmetry in E|].
Qed.

Lemma rtf_strip_plain (s : jsstring) :
  Forall (fun c => c ≠ 92%N /\ c ≠ 123%N /\ c ≠ 125%N /\ c ≠ 0%N) s ->
  rtf_strip s = s.
Proof.
  intros Hplain. unfold rtf_strip, replace_all.
  assert (Hb : forall c t, c ≠ 92%N /\ c ≠ 123%N /\ c ≠ 125%N /\ c ≠ 0%N ->
                           Re.braces (c :: t) = None).
  { intros c t (_ & H2 & H3 & _). unfold Re.braces, Re.one_of.
    by rewrite (proj2 (N.eqb_neq _ _) H2), (proj2 (N.eqb_neq _ _) H3). }
  assert (Hp : forall c t, c ≠ 92%N /\ c ≠ 123%N /\ c ≠ 125%N /\ c ≠ 0%N ->
                           Re.par (c :: t) = None).
  { intros c t (H1 & _). unfold Re.par.
    change (lit "\par") with (92%N :: lit "par"). by rewrite strip_backslash. }
  assert (Hh : forall c t, c ≠ 92%N /\ c ≠ 123%N /\ c ≠ 125%N /\ c ≠ 0%N ->
                           Re.hex_escape (c :: t) = None).
  { intros c t (H1 & _). unfold Re.hex_escape.
    change (lit "\'") with (92%N :: lit "'"). by rewrite strip_backslash. }
  assert (Hu : forall c t, c ≠ 92%N /\ c ≠ 123%N /\ c ≠ 125%N /\ c ≠ 0%N ->
                           Re.unicode_escape (c :: t) = None).
  { intros c t (H1 & _). unfold Re.unicode_escape.
    change (lit "\u") with (92%N :: lit "u"). by rewrite strip_backslash. }
  assert (Hw : forall c t, c ≠ 92%N /\ c ≠ 123%N /\ c ≠ 125%N /\ c ≠ 0%N ->
                           Re.control_word (c :: t) = None).
  { intros c t (H1 & _). unfold Re.control_word.
    change (lit "\") with (92%N :: []). by rewrite strip_backslash. }
  rewrite (replace_from_id _ _ _ Hb _ Hplain), (replace_from_id _ _ _ Hp _ Hplain),
    (replace_from_id _ _ _ Hh _ Hplain), (replace_from_id _ _ _ Hu _ Hplain).
  apply (replace_from_id _ _ _ Hw _ Hplain).
Qed.

(** X25: an RTF source that holds no backslash, no brace and no NUL
    character is returned as it is: every pattern of the stripper starts
    with one of these characters, so plain text passes through
    unchanged. *)
Theorem plain_rtf_passes_unchanged (file : File) :
  Forall (fun c => c ≠ 92%N /\ c ≠ 123%N /\ c ≠ 125%N /\ c ≠ 0%N)
    (utf8_decode L (file_bytes file)) ->
  extractText L W file RTF = ret (utf8_decode L (file_bytes file)).
Proof.
  intros Hplain. cbn [extractText]. f_equal.
  rewrite (rtf_strip_plain _ Hplain). apply toPlain_id.
  eapply Forall_impl; [exact Hplain|]. by intros c (_ & _ & _ & ?).
Qed.




(** X24: what the probe answers is what the page acts on: when the
    answer of the probe is recorded by the page, the page's health is the
    probe's body; after a 503 the server option is off, after a 200 it is
    as it was; the formats are not touched. *)
Theorem probe_answer_sets_server_option (host : Route.Host) (p : UI.Page) :
  let answer := fst (Probe.GET host) in
  let p' := UI.step L (UI.HealthDone (Some (Probe.probe_body answer))) p in
  health (UI.st p') = Some (Probe.probe_body answer)
  /\ UI.healthLoading p' = false
  /\ (Probe.probe_status answer = 503%N -> useServer (UI.st p') = false)
  /\ (Probe.probe_status answer = 200%N -> useServer (UI.st p') = useServer (UI.st p))
  /\ (targetFormat (UI.st p) ≠ sourceFormat (UI.st p) ->
      sourceFormat (UI.st p') = sourceFormat (UI.st p)
      /\ targetFormat (UI.st p') = targetFormat (UI.st p)).
Proof.
  intros answer p'. subst p'. unfold UI.step.
  set (q := UI.handle L (UI.HealthDone (Some (Probe.probe_body answer))) p).
  assert (Hq : health (UI.st q) = Some (Probe.probe_body answer)
               /\ UI.healthLoading q = false
               /\ useServer (UI.st q)
                  = (if negb (ok (Probe.probe_body answer)) && useServer (UI.st p)
                     then false else useServer (UI.st p))
               /\ sourceFormat (UI.st q) = sourceFormat (UI.st p)
               /\ targetFormat (UI.st q) = targetFormat (UI.st p)) by done.
  destruct Hq as (Hh & Hl & Hu & Hsrc & Htgt).
  assert (Hstatus : Probe.probe_status answer
                    = if ok (Probe.probe_body answer) then 200%N else 503%N).
  { subst answer.
    destruct (GET_cases host)
      as [(msg & Hi & ->)|[(lc & Hi & Hf & ->)|[(lc & c & msg & Hi & Hf & Hc & Hrun & ->)
                                              |(lc & c & data & Hi & Hf & Hc & Hrun & ->)]]];
      done. }
  unfold UI.effect. destruct (bool_decide _) eqn:E;
    cbn [UI.st UI.healthLoading UI.with_formats health useServer sourceFormat targetFormat].
  - apply bool_decide_eq_true in E.
    split; [done|]. split; [done|]. split; [|split].
    + intros H503. rewrite Hu. rewrite Hstatus in H503.
      destruct (ok (Probe.probe_body answer)); [done|]. by destruct (useServer (UI.st p)).
    + intros H200. rewrite Hu. rewrite Hstatus in H200.
      by destruct (ok (Probe.probe_body answer)).
    + intros Hne. exfalso. apply Hne. by rewrite <- Hsrc, <- Htgt.
  - split; [done|]. split; [done|]. split; [|split].
    + intros H503. rewrite Hu. rewrite Hstatus in H503.
      destruct (ok (Probe.probe_body answer)); [done|]. by destruct (useServer (UI.st p)).
    + intros H200. rewrite Hu. rewrite Hstatus in H200.
      by destruct (ok (Probe.probe_body answer)).
    + done.
Qed.

End Further.

(** ** The further statements at work on sample inputs *)

Section MoreInstances.

Import Sample MoreSample.

Lemma client_mode_stays_local_witness :
  useServer (state false (Some down)) = false
  /\ no_network (convertDocument libs (scanner [padded_page]) (state false (Some down))
                   report PDF TXT).
Proof.
  split; [reflexivity|].
  apply (client_mode_stays_local libs (scanner [padded_page]) (state false (Some down))
           report PDF TXT eq_refl).
Defined.

Lemma server_mode_single_request_witness :
  useServer (state true None) = true
  /\ (trace (convertDocument libs morning (state true None) notes TXT PDF) = []
      \/ trace (convertDocument libs morning (state true None) notes TXT PDF)
         = [EvFetch (lit "/api/convert")
              {| fd_file := notes; fd_targetExt := extMap PDF; fd_sourceExt := extMap TXT |}]).
Proof.
  split; [reflexivity|].
  apply (server_mode_single_request libs morning (state true None) notes TXT PDF eq_refl).
Defined.


Lemma extracted_text_has_no_nul_witness :
  outcome (extractText libs morning letter DOCX) = Ok (lit "Hello")
  /\ (DOCX ≠ TXT -> Forall (fun c => c ≠ 0%N) (lit "Hello")).
Proof.
  assert (Hx : outcome (extractText libs morning letter DOCX) = Ok (lit "Hello"))
    by (vm_compute; reflexivity).
  split; [exact Hx|].
  apply (extracted_text_has_no_nul libs morning letter DOCX (lit "Hello") Hx).
Defined.

Lemma server_option_off_when_unhealthy_witness :
  UI.reachable libs (UI.step libs (UI.HealthDone None) (UI.effect UI.initial))
  /\ useServer (UI.st (UI.step libs (UI.HealthDone None) (UI.effect UI.initial)))
     && health_not_ok (UI.st (UI.step libs (UI.HealthDone None) (UI.effect UI.initial)))
     = false.
Proof.
  assert (Hreach : UI.reachable libs
                     (UI.step libs (UI.HealthDone None) (UI.effect UI.initial)))
    by (apply UI.reach_step, UI.reach_initial).
  split; [exact Hreach|].
  apply (server_option_off_when_unhealthy libs _ Hreach).
Defined.

Lemma bad_gateway_lists_paths_witness :
  Route.status (fst (Route.POST broken_host letter_upload)) = 502%N
  /\ exists (msg : jsstring) (hints : list jsstring),
       Route.body (fst (Route.POST broken_host letter_upload))
       = Route.JsonError (lit "LibreOffice conversion failed: " ++ msg) (Some hints)
       /\ last hints
          = Some (lit "Paths tried: "
                  ++ join (lit ", ") (Route.resolveSofficeBinaryPaths broken_host))
       /\ length hints
          = (if Route.contains_ci (lit "ENOENT") msg then 3 else 1)%nat.
Proof.
  split; [reflexivity|].
  apply (bad_gateway_lists_paths broken_host letter_upload). reflexivity.
Defined.


Lemma page_shows_what_the_endpoint_says_witness :
  useServer (state true None) = true
  /\ health_not_ok (state true None) = false
  /\ ~ (DOCX = PDF /\ (PDF = DOCX \/ PDF = ODT))
  /\ outcome (convertDocument libs (Wire.served_by no_json broken_host morning)
                (state true None) letter DOCX PDF)
     = Throw (lit "LibreOffice conversion failed: spawn soffice ENOENT" ++ nl
              ++ lit "Output file not found. This often means soffice did not run or failed."
              ++ nl
              ++ lit "Ensure LibreOffice is installed and soffice is on PATH, or set LIBREOFFICE_BIN to the full path to soffice.exe."
              ++ nl
              ++ lit "Paths tried: /opt/libreoffice/soffice, /usr/bin/soffice, /usr/local/bin/soffice").
Proof.
  split; [reflexivity|]. split; [reflexivity|].
  assert (Hpair : ~ (DOCX = PDF /\ (PDF = DOCX \/ PDF = ODT))) by (by intros [? _]).
  split; [exact Hpair|].
  rewrite (page_shows_what_the_endpoint_says no_json libs broken_host morning
             (state true None) letter DOCX PDF eq_refl eq_refl Hpair).
  vm_compute. reflexivity.
Defined.

Lemma misdeclared_pdf_is_stopped_by_the_endpoint_witness :
  useServer (state true None) = true
  /\ health_not_ok (state true None) = false
  /\ DOCX ≠ PDF
  /\ (ODT = DOCX \/ ODT = ODT)
  /\ Route.ends_with_pdf (file_name report) = true
  /\ Route.toLowerCase host (extMap ODT) = extMap ODT
  /\ outcome (convertDocument libs (Wire.served_by no_json host morning)
                (state true None) report DOCX ODT)
     = Throw Route.rejected_msg.
Proof.
  split; [reflexivity|]. split; [reflexivity|]. split; [discriminate|].
  split; [by right|]. split; [reflexivity|]. split; [reflexivity|].
  destruct (misdeclared_pdf_is_stopped_by_the_endpoint no_json libs host morning
              (state true None) report DOCX ODT) as [E _];
    [reflexivity | reflexivity | discriminate | by right | reflexivity | reflexivity |].
  by rewrite E.
Defined.

Lemma download_name_after_success_witness :
  convertDocument libs morning (state false None) report
    (sourceFormat (state false None)) (targetFormat (state false None))
  = (Ok {| blob_data := BBytes []; blob_type := getMimeType DOCX |}, [])
  /\ exists base rest : jsstring,
       file_name report = base ++ rest
       /\ Forall (fun c => c ≠ 46%N) base
       /\ (rest = [] \/ exists r, rest = 46%N :: r)
       /\ Run.handleConvert libs morning (state false None) (Some report) idle_view
          = ({| Run.status := Run.success; Run.errorMsg := None;
                Run.downloadUrl := Some {| blob_data := BBytes [];
                                           blob_type := getMimeType DOCX |};
                Run.fileName := lit "converted-" ++ base ++ lit "."
                                ++ getExtension (targetFormat (state false None)) |}, [])
       /\ length (filter (fun c => c = 46%N)
                    (lit "converted-" ++ base ++ lit "."
                     ++ getExtension (targetFormat (state false None))))
          = 1.
Proof.
  assert (Hc : convertDocument libs morning (state false None) report
                 (sourceFormat (state false None)) (targetFormat (state false None))
               = (Ok {| blob_data := BBytes []; blob_type := getMimeType DOCX |}, []))
    by (vm_compute; reflexivity).
  split; [exact Hc|].
  apply (download_name_after_success libs morning (state false None) report idle_view
           _ _ Hc).
Defined.

Lemma plain_rtf_passes_unchanged_witness :
  Forall (fun c => c ≠ 92%N /\ c ≠ 123%N /\ c ≠ 125%N /\ c ≠ 0%N)
    (utf8_decode libs (file_bytes notes))
  /\ extractText libs morning notes RTF = ret (lit "buy milk").
Proof.
  assert (Hplain : Forall (fun c => c ≠ 92%N /\ c ≠ 123%N /\ c ≠ 125%N /\ c ≠ 0%N)
                     (utf8_decode libs (file_bytes notes))).
  { vm_compute. repeat (constructor; [repeat split; intros E; discriminate E|]).
    constructor. }
  split; [exact Hplain|].
  apply (plain_rtf_passes_unchanged libs morning notes Hplain).
Defined.


End MoreInstances.
